(** * BMM150 magnetometer driver: register access and property surface

    A shallow embedding of [micropython_bmm150/bmm150.py].  The I2C bus is an
    explicit state (the register file of the device plus the log of the
    transactions issued so far); Python exceptions are an error result; every
    descriptor access of the driver is a computation in the resulting
    state-and-error monad. *)

From Stdlib Require Import ZArith List String DecimalString Bool Lia Btauto.
From coqutil Require Import Z.bitblast.
Import ListNotations.

Local Open Scope string_scope.
Local Open Scope list_scope.
Local Open Scope Z_scope.

(** ** Exceptions, results and the bus monad *)

Inductive exn : Type :=
| ValueError (msg : string)
| RuntimeError (msg : string)
| IndexError
| KeyError (key : Z)
| TypeError
| StructError.

Inductive result (A : Type) : Type :=
| Ok (a : A)
| Raise (e : exn).

Arguments Ok {A} a.
Arguments Raise {A} e.

(** One transaction of the bus transport, as [machine.I2C] offers them:
    [readfrom_mem(addr, memaddr, nbytes)] and [writeto_mem(addr, memaddr, buf)]. *)
Inductive transaction : Type :=
| ReadFromMem (addr memaddr : Z) (nbytes : nat)
| WriteToMem (addr memaddr : Z) (buf : list Z).

(** The bus with the one device on it: [regs] is the device's register file
    (register address to byte), [trace] the transactions in call order. *)
Record bus : Type := mkBus {
  regs : Z -> Z;
  trace : list transaction
}.

Definition M (A : Type) : Type := bus -> result A * bus.

Definition ret {A} (a : A) : M A := fun b => (Ok a, b).

Definition raise {A} (e : exn) : M A := fun b => (Raise e, b).

Definition bind {A B} (m : M A) (k : A -> M B) : M B :=
  fun b =>
    match m b with
    | (Ok a, b') => k a b'
    | (Raise e, b') => (Raise e, b')
    end.

Notation "x <- m ;; k" := (bind m (fun x => k))
  (at level 61, m at next level, right associativity).
Notation "m ;;; k" := (bind m (fun _ => k))
  (at level 61, right associativity).

(** Every register holds one byte. *)
Definition wf_regs (f : Z -> Z) : Prop := forall a, 0 <= f a < 256.

(** ** Bus transport *)

Definition upd (f : Z -> Z) (a v : Z) : Z -> Z :=
  fun x => if x =? a then v else f x.

(** The device stores a buffer at consecutive register addresses. *)
Fixpoint store (f : Z -> Z) (memaddr : Z) (buf : list Z) : Z -> Z :=
  match buf with
  | [] => f
  | v :: tl => store (upd f memaddr v) (memaddr + 1) tl
  end.

Fixpoint fetch (f : Z -> Z) (memaddr : Z) (nbytes : nat) : list Z :=
  match nbytes with
  | O => []
  | S n => f memaddr :: fetch f (memaddr + 1) n
  end.

Definition readfrom_mem (addr memaddr : Z) (nbytes : nat) : M (list Z) :=
  fun b =>
    (Ok (fetch (regs b) memaddr nbytes),
     mkBus (regs b) (trace b ++ [ReadFromMem addr memaddr nbytes])).

Definition writeto_mem (addr memaddr : Z) (buf : list Z) : M unit :=
  fun b =>
    (Ok tt,
     mkBus (store (regs b) memaddr buf) (trace b ++ [WriteToMem addr memaddr buf])).

(** ** Byte order *)

Fixpoint le_combine (l : list Z) : Z :=
  match l with
  | [] => 0
  | v :: tl => v + 256 * le_combine tl
  end.

Fixpoint le_split (n : nat) (w : Z) : list Z :=
  match n with
  | O => []
  | S k => (w mod 256) :: le_split k (w / 256)
  end.

Definition combine_bytes (lsb_first : bool) (l : list Z) : Z :=
  if lsb_first then le_combine l else le_combine (rev l).

Definition split_bytes (lsb_first : bool) (n : nat) (w : Z) : list Z :=
  if lsb_first then le_split n w else rev (le_split n w).

(** ** Register Field Accessor ([i2c_helpers.CBits]) *)

Module CBits.

(** Modelled from the spec: the class [CBits] of
    [micropython_bmm150/i2c_helpers.py], which the driver imports, is not
    among the sources.  The descriptor and its two operations follow the
    Register Field Accessor of the specification: a read transfers
    ceil((bit offset + width) / 8) bytes, assembles them in the declared
    byte order, shifts right by the offset and masks to the width; a write
    of a field narrower than the span reads the image, clears the field with
    the mask, ORs in the value shifted into position and writes the span
    back; a field that fills the span is written without a read.  The value
    is not range checked. *)
Record t : Type := mk {
  num_bits : Z;
  register_address : Z;
  start_bit : Z;
  lsb_first : bool
}.

Definition span (c : t) : nat :=
  Z.to_nat ((start_bit c + num_bits c + 7) / 8).

Definition bit_mask (c : t) : Z :=
  Z.shiftl (Z.ones (num_bits c)) (start_bit c).

Definition fills_span (c : t) : bool :=
  (start_bit c =? 0) && (num_bits c =? 8 * Z.of_nat (span c)).

Definition extract (c : t) (image : Z) : Z :=
  Z.land (Z.shiftr image (start_bit c)) (Z.ones (num_bits c)).

Definition insert (c : t) (image value : Z) : Z :=
  Z.lor (Z.land image (Z.lnot (bit_mask c))) (Z.shiftl value (start_bit c)).

Definition get (c : t) (addr : Z) : M Z :=
  mem_value <- readfrom_mem addr (register_address c) (span c) ;;
  ret (extract c (combine_bytes (lsb_first c) mem_value)).

Definition set (c : t) (addr : Z) (value : Z) : M unit :=
  if fills_span c then
    writeto_mem addr (register_address c)
      (split_bytes (lsb_first c) (span c) value)
  else
    memory_value <- readfrom_mem addr (register_address c) (span c) ;;
    let reg := insert c (combine_bytes (lsb_first c) memory_value) value in
    writeto_mem addr (register_address c)
      (split_bytes (lsb_first c) (span c) reg).

End CBits.

(** ** Structured Register Accessor ([i2c_helpers.RegisterStruct]) *)

Module RegisterStruct.

(** Modelled from the spec: the class [RegisterStruct] of
    [micropython_bmm150/i2c_helpers.py] is not among the sources.  A layout
    is the register address with the format's byte order and its ordered
    fields (signed or unsigned, byte width).  A read transfers the layout's
    total width in one transaction and decodes one value per field; a
    single-field layout yields a scalar.  A write encodes with the same
    layout and issues one write; a tuple of the wrong arity is a local
    error, and a value with no encoding in its field is one as well. *)
Record field : Type := mkField { signed : bool; width : nat }.

Record t : Type := mk {
  register_address : Z;
  little_endian : bool;
  fields : list field
}.

(** What an access exchanges with the driver: a scalar for a single-field
    layout, a tuple otherwise. *)
Definition shape (fs : list field) : Type :=
  match fs with
  | [_] => Z
  | _ => list Z
  end.

Definition calcsize (fs : list field) : nat :=
  fold_right (fun f n => (width f + n)%nat) O fs.

Definition bits (f : field) : Z := 8 * Z.of_nat (width f).

Definition decode_field (le : bool) (f : field) (bytes : list Z) : Z :=
  let u := combine_bytes le bytes in
  if signed f && (2 ^ (bits f - 1) <=? u) then u - 2 ^ bits f else u.

Definition in_range (f : field) (v : Z) : bool :=
  if signed f
  then (- 2 ^ (bits f - 1) <=? v) && (v <? 2 ^ (bits f - 1))
  else (0 <=? v) && (v <? 2 ^ bits f).

Definition encode_field (le : bool) (f : field) (v : Z) : list Z :=
  split_bytes le (width f) (v mod 2 ^ bits f).

Fixpoint unpack (le : bool) (fs : list field) (bytes : list Z) : list Z :=
  match fs with
  | [] => []
  | f :: tl =>
      decode_field le f (firstn (width f) bytes)
        :: unpack le tl (skipn (width f) bytes)
  end.

Fixpoint pack (le : bool) (fs : list field) (vs : list Z)
  : result (list Z) :=
  match fs, vs with
  | [], [] => Ok []
  | f :: ftl, v :: vtl =>
      if in_range f v then
        match pack le ftl vtl with
        | Ok bytes => Ok (encode_field le f v ++ bytes)
        | Raise e => Raise e
        end
      else Raise StructError
  | _, _ => Raise StructError
  end.

Definition decode (le : bool) (fs : list field) (bytes : list Z) : shape fs :=
  match fs return shape fs with
  | [] => []
  | f :: tl =>
      match tl return shape (f :: tl) with
      | [] => decode_field le f (firstn (width f) bytes)
      | g :: tl' => unpack le (f :: g :: tl') bytes
      end
  end.

Definition encode (le : bool) (fs : list field) : shape fs -> result (list Z) :=
  match fs return shape fs -> result (list Z) with
  | [] => fun vs => pack le [] vs
  | f :: tl =>
      match tl return shape (f :: tl) -> result (list Z) with
      | [] => fun v => pack le [f] [v]
      | g :: tl' => fun vs => pack le (f :: g :: tl') vs
      end
  end.

Definition get (d : t) (addr : Z) : M (shape (fields d)) :=
  bytes <- readfrom_mem addr (register_address d) (calcsize (fields d)) ;;
  ret (decode (little_endian d) (fields d) bytes).

Definition set (d : t) (addr : Z) (value : shape (fields d)) : M unit :=
  match encode (little_endian d) (fields d) value with
  | Ok mem_value => writeto_mem addr (register_address d) mem_value
  | Raise e => raise e
  end.

(** The format characters the driver uses. *)
Definition B : field := mkField false 1.
Definition H : field := mkField false 2.
Definition h : field := mkField true 2.

End RegisterStruct.

(** ** Python sequence and mapping operations used by the driver *)

(** [value in values] for a tuple of integers. *)
Definition contains (values : list Z) (value : Z) : bool :=
  existsb (Z.eqb value) values.

(** [values[i]] for a tuple: a negative index counts from the end, an index
    out of range raises [IndexError]. *)
Definition tuple_getitem {A} (values : list A) (i : Z) : M A :=
  let n := Z.of_nat (List.length values) in
  let j := if i <? 0 then i + n else i in
  if (0 <=? j) && (j <? n) then
    match nth_error values (Z.to_nat j) with
    | Some v => ret v
    | None => raise IndexError
    end
  else raise IndexError.

(** [values[key]] for a dict with integer keys: a missing key raises
    [KeyError]. *)
Fixpoint dict_lookup {A} (values : list (Z * A)) (key : Z) : option A :=
  match values with
  | [] => None
  | (k, v) :: tl => if key =? k then Some v else dict_lookup tl key
  end.

Definition dict_getitem {A} (values : list (Z * A)) (key : Z) : M A :=
  match dict_lookup values key with
  | Some v => ret v
  | None => raise (KeyError key)
  end.

(** ** The driver ([bmm150.py]) *)

Definition _REG_WHOAMI : Z := 0x40.
Definition _POWER_CONTROL : Z := 0x4B.
Definition _OPERATION_MODE : Z := 0x4C.
Definition _DATA : Z := 0x42.
Definition _LOW_THRESHOLD : Z := 0x4F.
Definition _HIGH_THRESHOLD : Z := 0x50.

Definition NORMAL : Z := 0.   (* 0b00 *)
Definition FORCED : Z := 1.   (* 0b01 *)
Definition SLEEP : Z := 3.    (* 0b11 *)
Definition operation_mode_values : list Z := [NORMAL; FORCED; SLEEP].

Definition INT_DISABLED : Z := 0x1F.
Definition INT_ENABLED : Z := 0x00.
Definition interrupt_mode_values : list Z := [INT_DISABLED; INT_ENABLED].

Definition RATE_10HZ : Z := 0.   (* 0b000 *)
Definition RATE_2HZ : Z := 1.    (* 0b001 *)
Definition RATE_6HZ : Z := 2.    (* 0b010 *)
Definition RATE_8HZ : Z := 3.    (* 0b011 *)
Definition RATE_15HZ : Z := 4.   (* 0b100 *)
Definition RATE_20HZ : Z := 5.   (* 0b101 *)
Definition RATE_25HZ : Z := 6.   (* 0b110 *)
Definition RATE_30HZ : Z := 7.   (* 0b111 *)
Definition data_rate_values : list Z :=
  [RATE_10HZ; RATE_2HZ; RATE_6HZ; RATE_8HZ;
   RATE_15HZ; RATE_20HZ; RATE_25HZ; RATE_30HZ].

Record AlertStatus : Type := mkAlertStatus {
  high_x : Z; high_y : Z; high_z : Z;
  low_x : Z; low_y : Z; low_z : Z
}.

Module BMM150.

(** The instance: the bus itself is the monad's state, the instance keeps
    the device address. *)
Record t : Type := mk { _address : Z }.

(** Class-level descriptors.  The byte order of a [CBits] is left at its
    default by the driver; every field below spans one byte. *)
Definition _device_id :=
  RegisterStruct.mk _REG_WHOAMI true [RegisterStruct.B].

Definition _operation_mode := CBits.mk 2 _OPERATION_MODE 1 true.
Definition _raw_data :=
  RegisterStruct.mk _DATA true
    [RegisterStruct.h; RegisterStruct.h; RegisterStruct.h; RegisterStruct.h].
Definition _raw_x := RegisterStruct.mk _DATA true [RegisterStruct.H].

Definition _interrupt := RegisterStruct.mk 0x4D true [RegisterStruct.B].
Definition _status_interrupt := RegisterStruct.mk 0x4A true [RegisterStruct.B].

Definition _power_mode := CBits.mk 1 _POWER_CONTROL 0 true.
Definition _high_threshold :=
  RegisterStruct.mk _HIGH_THRESHOLD true [RegisterStruct.B].
Definition _low_threshold :=
  RegisterStruct.mk _LOW_THRESHOLD true [RegisterStruct.B].

Definition _data_rate := CBits.mk 2 _OPERATION_MODE 0 true.

Definition __init__ (address : Z) : M t :=
  let self := mk address in
  CBits.set _power_mode (_address self) 1 (* True *) ;;;
  device_id <- RegisterStruct.get _device_id (_address self) ;;
  if negb (device_id =? 0x32) then
    raise (RuntimeError "Failed to find BMM150")
  else
    CBits.set _operation_mode (_address self) NORMAL ;;;
    ret self.

Definition operation_mode (self : t) : M string :=
  let values := ["NORMAL"; "FORCED"; "SLEEP"] in
  i <- CBits.get _operation_mode (_address self) ;;
  tuple_getitem values i.

Definition set_operation_mode (self : t) (value : Z) : M unit :=
  if negb (contains operation_mode_values value) then
    raise (ValueError "Value must be a valid operation_mode setting")
  else CBits.set _operation_mode (_address self) value.

Definition measurements (self : t) : M (Z * Z * Z * Z) :=
  raw <- RegisterStruct.get _raw_data (_address self) ;;
  match raw with
  | [raw_magx; raw_magy; raw_magz; raw_rhall] =>
      let magx := Z.shiftr raw_magx 3 in
      let magy := Z.shiftr raw_magy 3 in
      let magz := Z.shiftr raw_magz 1 in
      let hall := Z.shiftr raw_rhall 2 in
      ret (magx, magy, magz, hall)
  | _ => raise (ValueError "unpack")
  end.

Definition high_threshold (self : t) : M Z :=
  v <- RegisterStruct.get _high_threshold (_address self) ;;
  ret (v * 16).

(** [int(value / 16)]: the true division of an integer by 16 is exact in
    binary floating point below 2^53 in magnitude, and [int] truncates
    toward zero; beyond that magnitude the quotient is far outside a
    byte either way. *)
Definition set_high_threshold (self : t) (value : Z) : M unit :=
  RegisterStruct.set _high_threshold (_address self) (Z.quot value 16).

Definition low_threshold (self : t) : M Z :=
  v <- RegisterStruct.get _low_threshold (_address self) ;;
  ret (v * 16).

Definition set_low_threshold (self : t) (value : Z) : M unit :=
  RegisterStruct.set _low_threshold (_address self) (Z.quot value 16).

Definition interrupt_mode (self : t) : M string :=
  let values := [(INT_DISABLED, "INT_DISABLED"); (INT_ENABLED, "INT_ENABLED")] in
  k <- RegisterStruct.get _interrupt (_address self) ;;
  dict_getitem values k.

Definition set_interrupt_mode (self : t) (value : Z) : M unit :=
  if negb (contains interrupt_mode_values value) then
    raise (ValueError "Value must be a valid interrupt_mode setting")
  else RegisterStruct.set _interrupt (_address self) value.

Definition status_interrupt (self : t) : M AlertStatus :=
  data <- RegisterStruct.get _status_interrupt (_address self) ;;
  let highz := Z.shiftr (Z.land data 0x20) 5 in
  let highy := Z.shiftr (Z.land data 0x10) 4 in
  let highx := Z.shiftr (Z.land data 0x08) 3 in
  let lowz := Z.shiftr (Z.land data 0x04) 2 in
  let lowy := Z.shiftr (Z.land data 0x02) 1 in
  let lowx := Z.land data 0x01 in
  ret (mkAlertStatus highx highy highz lowx lowy lowz).

Definition data_rate (self : t) : M string :=
  let values :=
    ["RATE_10HZ"; "RATE_2HZ"; "RATE_6HZ"; "RATE_8HZ";
     "RATE_15HZ"; "RATE_20HZ"; "RATE_25HZ"; "RATE_30HZ"] in
  i <- CBits.get _data_rate (_address self) ;;
  tuple_getitem values i.

Definition set_data_rate (self : t) (value : Z) : M unit :=
  if negb (contains data_rate_values value) then
    raise (ValueError "Value must be a valid data_rate setting")
  else CBits.set _data_rate (_address self) value.

End BMM150.

(** ** Observations on the register file used in the statements *)

(** The register image a field accessor works on: the bytes of its span,
    assembled in its byte order. *)
Definition image (c : CBits.t) (f : Z -> Z) : Z :=
  combine_bytes (CBits.lsb_first c)
    (fetch f (CBits.register_address c) (CBits.span c)).

(** The two's-complement little-endian bytes of a 16-bit sample, as the
    device lays them out in the data registers. *)
Definition int16_le (v : Z) : list Z :=
  let u := v mod 2 ^ 16 in [u mod 256; u / 256].

Definition int16 (v : Z) : Prop := - 2 ^ 15 <= v < 2 ^ 15.

(** Running a computation: its outcome and the bus it leaves. *)
Definition outcome {A} (m : M A) (s : bus) : result A := fst (m s).
Definition after {A} (m : M A) (s : bus) : bus := snd (m s).

(** ** The example scripts ([examples/bmm150_data_rate.py],
    [examples/bmm150_interrupt_mode.py]) *)

Module Script.

(** How a script stops: on an exception that nothing catches, or, for a
    [while True] loop that is still going, when the iterations granted to the
    run are used up. *)
Inductive stop : Type :=
| Uncaught (e : exn)
| AttributeError (name : string)
| UnpackError
| StillRunning.

Inductive status (A : Type) : Type :=
| Done (a : A)
| Stop (st : stop).

Arguments Done {A} a.
Arguments Stop {A} st.

(** The world of a script: the bus and what it has printed, line by line. *)
Record world : Type := mkWorld {
  i2c : bus;
  stdout : list string
}.

Definition t (A : Type) : Type := world -> status A * world.

Definition pure {A} (a : A) : t A := fun w => (Done a, w).

Definition halt {A} (st : stop) : t A := fun w => (Stop st, w).

Definition and_then {A B} (m : t A) (k : A -> t B) : t B :=
  fun w =>
    match m w with
    | (Done a, w') => k a w'
    | (Stop st, w') => (Stop st, w')
    end.

Notation "x <~ m ;; k" := (and_then m (fun x => k))
  (at level 61, m at next level, right associativity).
Notation "m ~~> k" := (and_then m (fun _ => k))
  (at level 61, right associativity).

(** A driver call made by the script. *)
Definition lift {A} (m : M A) : t A :=
  fun w =>
    match m (i2c w) with
    | (Ok a, b) => (Done a, mkWorld b (stdout w))
    | (Raise e, b) => (Stop (Uncaught e), mkWorld b (stdout w))
    end.

Definition print (line : string) : t unit :=
  fun w => (Done tt, mkWorld (i2c w) (stdout w ++ [line])).

(** [time.sleep(0.5)]: time is not part of the world. *)
Definition sleep : t unit := pure tt.

Fixpoint for_each {A} (xs : list A) (body : A -> t unit) : t unit :=
  match xs with
  | [] => pure tt
  | x :: tl => body x ~~> for_each tl body
  end.

Fixpoint while_true (fuel : nat) (body : t unit) : t unit :=
  match fuel with
  | O => halt StillRunning
  | S n => body ~~> while_true n body
  end.

(** [str] of an integer, and the ["{:.2f}"] format of one. *)
Definition str (z : Z) : string := NilZero.string_of_int (Z.to_int z).

Definition fixed2 (z : Z) : string := (str z ++ ".00")%string.

(** [repr] of the named tuple, as [print] shows it. *)
Definition repr (a : AlertStatus) : string :=
  ("AlertStatus(high_x=" ++ str (high_x a)
   ++ ", high_y=" ++ str (high_y a)
   ++ ", high_z=" ++ str (high_z a)
   ++ ", low_x=" ++ str (low_x a)
   ++ ", low_y=" ++ str (low_y a)
   ++ ", low_z=" ++ str (low_z a) ++ ")")%string.

(** The values an attribute of the instance can evaluate to. *)
Inductive pyvalue : Type :=
| PyInt (z : Z)
| PyStr (s : string)
| PyTuple (zs : list Z)
| PyAlert (a : AlertStatus)
| PyObject (what : string).

(** The attributes of a [BMM150] instance: the two set by [__init__], the
    descriptors and the properties of the class body, and [__init__]. *)
Definition attributes (self : BMM150.t) : list (string * t pyvalue) :=
  let addr := BMM150._address self in
  let field c := v <~ lift (CBits.get c addr) ;; pure (PyInt v) in
  [ ("_i2c", pure (PyObject "I2C"));
    ("_address", pure (PyInt addr));
    ("_device_id",
       v <~ lift (RegisterStruct.get BMM150._device_id addr) ;; pure (PyInt v));
    ("_operation_mode", field BMM150._operation_mode);
    ("_raw_data",
       v <~ lift (RegisterStruct.get BMM150._raw_data addr) ;; pure (PyTuple v));
    ("_raw_x",
       v <~ lift (RegisterStruct.get BMM150._raw_x addr) ;; pure (PyInt v));
    ("_interrupt",
       v <~ lift (RegisterStruct.get BMM150._interrupt addr) ;; pure (PyInt v));
    ("_status_interrupt",
       v <~ lift (RegisterStruct.get BMM150._status_interrupt addr) ;;
       pure (PyInt v));
    ("_power_mode", field BMM150._power_mode);
    ("_high_threshold",
       v <~ lift (RegisterStruct.get BMM150._high_threshold addr) ;;
       pure (PyInt v));
    ("_low_threshold",
       v <~ lift (RegisterStruct.get BMM150._low_threshold addr) ;;
       pure (PyInt v));
    ("_data_rate", field BMM150._data_rate);
    ("__init__", pure (PyObject "bound method"));
    ("operation_mode",
       v <~ lift (BMM150.operation_mode self) ;; pure (PyStr v));
    ("measurements",
       v <~ lift (BMM150.measurements self) ;;
       let '(magx, magy, magz, hall) := v in
       pure (PyTuple [magx; magy; magz; hall]));
    ("high_threshold",
       v <~ lift (BMM150.high_threshold self) ;; pure (PyInt v));
    ("low_threshold",
       v <~ lift (BMM150.low_threshold self) ;; pure (PyInt v));
    ("interrupt_mode",
       v <~ lift (BMM150.interrupt_mode self) ;; pure (PyStr v));
    ("status_interrupt",
       v <~ lift (BMM150.status_interrupt self) ;; pure (PyAlert v));
    ("data_rate", v <~ lift (BMM150.data_rate self) ;; pure (PyStr v)) ].

Fixpoint find_attribute {A} (name : string) (table : list (string * A))
  : option A :=
  match table with
  | [] => None
  | (n, a) :: tl => if String.eqb name n then Some a else find_attribute name tl
  end.

(** [self.name]: an attribute the instance does not have raises
    [AttributeError]. *)
Definition getattr (self : BMM150.t) (name : string) : t pyvalue :=
  match find_attribute name (attributes self) with
  | Some m => m
  | None => halt (AttributeError name)
  end.

(** [examples/bmm150_data_rate.py]: the body of the [while True] loop and
    the script. *)
Definition data_rate_body (bmm : BMM150.t) : t unit :=
  for_each data_rate_values (fun data_rate =>
    current <~ lift (BMM150.data_rate bmm) ;;
    print ("Current Data rate setting: " ++ " " ++ current)%string ~~>
    for_each (seq 0 10) (fun _ =>
      magnetic <~ getattr bmm "magnetic" ;;
      match magnetic with
      | PyTuple [magx; magy; magz] =>
          print ("x:" ++ fixed2 magx ++ "T, y:" ++ fixed2 magy
                 ++ "T, z:" ++ fixed2 magz ++ "T")%string ~~>
          print "" ~~>
          sleep
      | _ => halt UnpackError
      end) ~~>
    lift (BMM150.set_data_rate bmm data_rate)).

Definition data_rate_example (fuel : nat) : t unit :=
  bmm <~ lift (BMM150.__init__ 0x13) ;;
  lift (BMM150.set_data_rate bmm RATE_2HZ) ~~>
  while_true fuel (data_rate_body bmm).

(** [examples/bmm150_interrupt_mode.py]: the statements before the loop and
    the body of the loop. *)
Definition interrupt_mode_setup : t BMM150.t :=
  bmm <~ lift (BMM150.__init__ 0x13) ;;
  lift (BMM150.set_interrupt_mode bmm INT_ENABLED) ~~>
  lift (BMM150.set_high_threshold bmm 100) ~~>
  pure bmm.

Definition interrupt_mode_body (bmm : BMM150.t) : t unit :=
  m <~ lift (BMM150.measurements bmm) ;;
  let '(magx, magy, magz, _) := m in
  print ("x: " ++ str magx ++ "uT, y: " ++ str magy
         ++ "uT, z:" ++ str magz ++ "uT")%string ~~>
  st <~ lift (BMM150.status_interrupt bmm) ;;
  print (repr st) ~~>
  print "" ~~>
  sleep.

Definition interrupt_mode_example (fuel : nat) : t unit :=
  bmm <~ interrupt_mode_setup ;;
  while_true fuel (interrupt_mode_body bmm).

End Script.

(** * Properties *)

(** ** The monad *)

Lemma bind_ok {A B} (m : M A) (k : A -> M B) (s s' : bus) (a : A) :
  m s = (Ok a, s') -> bind m k s = k a s'.
Proof. intros E. unfold bind. rewrite E. reflexivity. Qed.

Lemma bind_raise {A B} (m : M A) (k : A -> M B) (s s' : bus) (e : exn) :
  m s = (Raise e, s') -> bind m k s = (Raise e, s').
Proof. intros E. unfold bind. rewrite E. reflexivity. Qed.

(** ** The register file *)

Lemma store_below (buf : list Z) :
  forall f a x, x < a -> store f a buf x = f x.
Proof.
  induction buf as [|v tl IH]; intros f a x Hx; simpl; [reflexivity|].
  rewrite IH by lia. unfold upd.
  destruct (Z.eqb_spec x a); [lia | reflexivity].
Qed.

Lemma store_above (buf : list Z) :
  forall f a x, a + Z.of_nat (List.length buf) <= x -> store f a buf x = f x.
Proof.
  induction buf as [|v tl IH]; intros f a x Hx; simpl in *; [reflexivity|].
  rewrite IH by lia. unfold upd.
  destruct (Z.eqb_spec x a); [lia | reflexivity].
Qed.

Lemma fetch_store (buf : list Z) :
  forall f a, fetch (store f a buf) a (List.length buf) = buf.
Proof.
  induction buf as [|v tl IH]; intros f a; simpl; [reflexivity|].
  rewrite IH. f_equal.
  rewrite store_below by lia. unfold upd. now rewrite Z.eqb_refl.
Qed.

Lemma fetch_length (n : nat) :
  forall f a, List.length (fetch f a n) = n.
Proof. induction n; intros; simpl; [reflexivity | now rewrite IHn]. Qed.

Lemma fetch_wf (n : nat) :
  forall f a, wf_regs f -> Forall (fun v => 0 <= v < 256) (fetch f a n).
Proof.
  induction n; intros f a Hf; simpl; constructor; [apply Hf | now apply IHn].
Qed.

(** ** Byte order *)

Lemma le_split_length (n : nat) : forall w, List.length (le_split n w) = n.
Proof. induction n; intros; simpl; [reflexivity | now rewrite IHn]. Qed.

Lemma split_bytes_length (o : bool) (n : nat) (w : Z) :
  List.length (split_bytes o n w) = n.
Proof.
  unfold split_bytes. destruct o; [| rewrite length_rev]; apply le_split_length.
Qed.

Lemma le_combine_split (n : nat) :
  forall w, le_combine (le_split n w) = w mod 2 ^ (8 * Z.of_nat n).
Proof.
  induction n as [|n IH]; intros w.
  - simpl. now rewrite Z.mod_1_r.
  - cbn [le_split le_combine]. rewrite IH.
    replace (8 * Z.of_nat (S n)) with (8 + 8 * Z.of_nat n) by lia.
    rewrite Z.pow_add_r by lia. change (2 ^ 8) with 256.
    rewrite Z.rem_mul_r by lia. reflexivity.
Qed.

Lemma combine_split_bytes (o : bool) (n : nat) (w : Z) :
  combine_bytes o (split_bytes o n w) = w mod 2 ^ (8 * Z.of_nat n).
Proof.
  unfold combine_bytes, split_bytes. destruct o.
  - apply le_combine_split.
  - rewrite rev_involutive. apply le_combine_split.
Qed.

Lemma le_combine_bound (l : list Z) :
  Forall (fun v => 0 <= v < 256) l ->
  0 <= le_combine l < 2 ^ (8 * Z.of_nat (List.length l)).
Proof.
  induction 1 as [|v tl Hv Htl IH]; [simpl; lia|].
  cbn [le_combine List.length].
  replace (8 * Z.of_nat (S (List.length tl)))
    with (8 + 8 * Z.of_nat (List.length tl)) by lia.
  rewrite Z.pow_add_r by lia. change (2 ^ 8) with 256. nia.
Qed.

Lemma combine_bytes_bound (o : bool) (l : list Z) :
  Forall (fun v => 0 <= v < 256) l ->
  0 <= combine_bytes o l < 2 ^ (8 * Z.of_nat (List.length l)).
Proof.
  intros Hl. unfold combine_bytes. destruct o.
  - now apply le_combine_bound.
  - rewrite <- length_rev. apply le_combine_bound. now apply Forall_rev.
Qed.

(** ** The field accessor *)

Lemma testbit_above (x n i : Z) :
  0 <= x < 2 ^ n -> n <= i -> Z.testbit x i = false.
Proof.
  intros Hx Hi.
  destruct (Z.ltb_spec n 0) as [Hn|Hn].
  - rewrite Z.pow_neg_r in Hx by lia. lia.
  - rewrite <- (Z.mod_small x (2 ^ n)) by lia.
    apply Z.mod_pow2_bits_high. lia.
Qed.

Section FieldAccessor.

(** A descriptor as the driver declares them: a bit offset and a width,
    neither negative. *)
Variable c : CBits.t.
Hypothesis Hstart : 0 <= CBits.start_bit c.
Hypothesis Hbits : 0 <= CBits.num_bits c.

Lemma span_covers :
  CBits.start_bit c + CBits.num_bits c <= 8 * Z.of_nat (CBits.span c).
Proof.
  unfold CBits.span.
  rewrite Z2Nat.id by (apply Z.div_pos; lia).
  pose proof (Z.div_mod (CBits.start_bit c + CBits.num_bits c + 7) 8 ltac:(lia)).
  pose proof (Z.mod_pos_bound (CBits.start_bit c + CBits.num_bits c + 7) 8 ltac:(lia)).
  lia.
Qed.

Lemma extract_insert (n img v : Z) :
  CBits.start_bit c + CBits.num_bits c <= n ->
  CBits.extract c (CBits.insert c img v mod 2 ^ n) = v mod 2 ^ CBits.num_bits c.
Proof.
  intros Hspan.
  unfold CBits.extract, CBits.insert, CBits.bit_mask.
  rewrite <- !Z.land_ones by lia.
  Z.bitblast.
Qed.

Lemma insert_frame (img v i : Z) :
  0 <= v < 2 ^ CBits.num_bits c ->
  ~ (CBits.start_bit c <= i < CBits.start_bit c + CBits.num_bits c) ->
  Z.testbit (CBits.insert c img v) i = Z.testbit img i.
Proof.
  intros Hv Hi. unfold CBits.insert, CBits.bit_mask.
  destruct (Z.ltb_spec i 0) as [Hneg|Hpos]; [now rewrite !Z.testbit_neg_r|].
  assert (Hhigh : forall j, CBits.num_bits c <= j -> Z.testbit v j = false).
  { intros j Hj. apply (testbit_above v (CBits.num_bits c)); assumption. }
  Z.bitblast_core;
    rewrite ?(Z.testbit_neg_r v) by lia; rewrite ?Hhigh by lia;
    simpl; btauto.
Qed.

Lemma image_bound (f : Z -> Z) :
  wf_regs f -> 0 <= image c f < 2 ^ (8 * Z.of_nat (CBits.span c)).
Proof.
  intros Hf. unfold image.
  pose proof (combine_bytes_bound (CBits.lsb_first c)
                (fetch f (CBits.register_address c) (CBits.span c))
                (fetch_wf _ _ _ Hf)) as Hb.
  now rewrite fetch_length in Hb.
Qed.

Lemma image_store (f : Z -> Z) (w : Z) :
  image c (store f (CBits.register_address c)
             (split_bytes (CBits.lsb_first c) (CBits.span c) w))
  = w mod 2 ^ (8 * Z.of_nat (CBits.span c)).
Proof.
  unfold image.
  rewrite <- (split_bytes_length (CBits.lsb_first c) (CBits.span c) w) at 2.
  rewrite fetch_store. apply combine_split_bytes.
Qed.

Lemma CBits_get_run (addr : Z) (s : bus) :
  CBits.get c addr s =
  (Ok (CBits.extract c (image c (regs s))),
   mkBus (regs s)
     (trace s ++ [ReadFromMem addr (CBits.register_address c) (CBits.span c)])).
Proof. reflexivity. Qed.

(** What a field write sends over the bus. *)
Lemma CBits_set_run (addr v : Z) (s : bus) :
  let w := if CBits.fills_span c then v
           else CBits.insert c (image c (regs s)) v in
  let buf := split_bytes (CBits.lsb_first c) (CBits.span c) w in
  CBits.set c addr v s =
  (Ok tt,
   mkBus (store (regs s) (CBits.register_address c) buf)
     (trace s ++
      (if CBits.fills_span c then []
       else [ReadFromMem addr (CBits.register_address c) (CBits.span c)]) ++
      [WriteToMem addr (CBits.register_address c) buf])).
Proof.
  unfold CBits.set. destruct (CBits.fills_span c); cbn.
  - reflexivity.
  - unfold bind, readfrom_mem, writeto_mem, image. cbn.
    now rewrite <- app_assoc.
Qed.

(** A field read after a field write sees the value, cut to the width. *)
Lemma CBits_get_after_set (addr v : Z) (s : bus) :
  outcome (CBits.get c addr) (after (CBits.set c addr v) s)
  = Ok (v mod 2 ^ CBits.num_bits c).
Proof.
  unfold outcome, after.
  rewrite CBits_set_run, CBits_get_run. cbn [fst snd regs].
  rewrite image_store. f_equal.
  destruct (CBits.fills_span c) eqn:Hfull.
  - unfold CBits.fills_span in Hfull.
    apply andb_true_iff in Hfull as [H0 H8].
    apply Z.eqb_eq in H0. apply Z.eqb_eq in H8.
    unfold CBits.extract.
    rewrite H0, Z.shiftr_0_r, Z.land_ones by lia.
    rewrite <- H8. apply Z.mod_mod. apply Z.pow_nonzero; lia.
  - apply extract_insert. apply span_covers.
Qed.

Lemma set_then_get {A} (addr v : Z) (k : Z -> M A) (s : bus) :
  (CBits.set c addr v ;;; (i <- CBits.get c addr ;; k i)) s
  = k (v mod 2 ^ CBits.num_bits c)
      (after (CBits.get c addr) (after (CBits.set c addr v) s)).
Proof.
  pose proof (CBits_get_after_set addr v s) as Hget.
  unfold outcome, after in *.
  destruct (CBits.set c addr v s) as [r s1] eqn:Hset.
  rewrite CBits_set_run in Hset. injection Hset as <- <-.
  erewrite bind_ok by apply CBits_set_run.
  cbn [fst snd] in *.
  destruct (CBits.get c addr _) as [r2 s2] eqn:Hrun in Hget |- *.
  cbn [fst snd] in *. subst r2.
  erewrite bind_ok by exact Hrun. reflexivity.
Qed.

End FieldAccessor.

(** ** Bit-field isolation *)

(** C10 (as amended): for every register content and every value within the
    field's width, [0 <= value < 2 ^ num_bits], the write of a bit-field
    succeeds, leaves every bit of the register image outside the field's span
    and every register outside the bytes it transfers unchanged, and the
    field then holds the value. *)
Theorem field_write_isolation (c : CBits.t) (addr v : Z) (s : bus) :
  wf_regs (regs s) ->
  0 <= CBits.start_bit c -> 0 <= CBits.num_bits c ->
  0 <= v < 2 ^ CBits.num_bits c ->
  let s' := after (CBits.set c addr v) s in
  outcome (CBits.set c addr v) s = Ok tt /\
  (forall i,
      ~ (CBits.start_bit c <= i < CBits.start_bit c + CBits.num_bits c) ->
      Z.testbit (image c (regs s')) i = Z.testbit (image c (regs s)) i) /\
  (forall a,
      ~ (CBits.register_address c <= a
         < CBits.register_address c + Z.of_nat (CBits.span c)) ->
      regs s' a = regs s a) /\
  CBits.extract c (image c (regs s')) = v.
Proof.
  intros Hwf Hs Hn Hv s'.
  pose proof (span_covers c Hs Hn) as Hspan.
  pose proof (image_bound c (regs s) Hwf) as Himg.
  pose proof (CBits_get_after_set c Hs Hn addr v s) as Hget.
  unfold outcome in Hget. rewrite CBits_get_run in Hget. cbn [fst] in Hget.
  fold s' in Hget. rewrite (Z.mod_small v _ Hv) in Hget.
  injection Hget as Hheld.
  subst s'. unfold outcome, after in *. rewrite CBits_set_run in *.
  cbn [fst snd regs] in *.
  split; [reflexivity|]. split; [|split].
  - intros i Hi. rewrite image_store.
    destruct (Z.ltb_spec i 0) as [Hneg|Hpos]; [now rewrite !Z.testbit_neg_r|].
    destruct (Z.ltb_spec i (8 * Z.of_nat (CBits.span c))) as [Hlow|Hhigh].
    + rewrite Z.mod_pow2_bits_low by lia.
      destruct (CBits.fills_span c) eqn:Hfull.
      * unfold CBits.fills_span in Hfull.
        apply andb_true_iff in Hfull as [H0 H8].
        apply Z.eqb_eq in H0. apply Z.eqb_eq in H8. lia.
      * now apply insert_frame.
    + rewrite Z.mod_pow2_bits_high by lia.
      symmetry. eapply testbit_above; [exact Himg | exact Hhigh].
  - intros a Ha.
    destruct (Z.ltb_spec a (CBits.register_address c)) as [Hlt|Hge].
    + now apply store_below.
    + apply store_above. rewrite split_bytes_length. lia.
  - exact Hheld.
Qed.

Lemma field_write_isolation_witness :
  let s := mkBus (fun _ => 0xFF) [] in
  let s' := after (CBits.set BMM150._data_rate 0x13 RATE_6HZ) s in
  Z.testbit (image BMM150._data_rate (regs s')) 2
  = Z.testbit (image BMM150._data_rate (regs s)) 2 /\
  CBits.extract BMM150._data_rate (image BMM150._data_rate (regs s')) = RATE_6HZ.
Proof.
  intros s s'.
  assert (Hwf : wf_regs (regs s)) by (intros a; simpl; lia).
  destruct (field_write_isolation BMM150._data_rate 0x13 RATE_6HZ s Hwf
              ltac:(simpl; lia) ltac:(simpl; lia)
              ltac:(unfold RATE_6HZ; simpl; lia))
    as (_ & Hframe & _ & Hheld).
  split; [apply Hframe; simpl; lia | exact Hheld].
Defined.

(** C10 (as stated) fails: the field accessor does not confine an oversized
    value to the field.  On a cleared register 0x4C the driver's own write of
    [RATE_15HZ = 0b100] to the two-bit data-rate field (bits 0 and 1) succeeds
    and sets bit 2, which lies outside the field. *)
Lemma field_write_isolation_counterexample :
  let s := mkBus (fun _ => 0) [] in
  let self := BMM150.mk 0x13 in
  let s' := after (BMM150.set_data_rate self RATE_15HZ) s in
  outcome (BMM150.set_data_rate self RATE_15HZ) s = Ok tt /\
  CBits.start_bit BMM150._data_rate = 0 /\
  CBits.num_bits BMM150._data_rate = 2 /\
  Z.testbit (regs s _OPERATION_MODE) 2 = false /\
  Z.testbit (regs s' _OPERATION_MODE) 2 = true /\
  ~ (forall i,
        ~ (CBits.start_bit BMM150._data_rate <= i
           < CBits.start_bit BMM150._data_rate
             + CBits.num_bits BMM150._data_rate) ->
        Z.testbit (image BMM150._data_rate (regs s')) i
        = Z.testbit (image BMM150._data_rate (regs s)) i).
Proof.
  cbv zeta. repeat split.
  intros Hall. specialize (Hall 2 ltac:(simpl; lia)).
  vm_compute in Hall. discriminate Hall.
Qed.

(** ** Setting a field and reading it back through the driver *)

(** Run a validated field write followed by the field read. *)
Ltac field_cycle :=
  cbn -[CBits.set CBits.get tuple_getitem bind];
  rewrite set_then_get by (simpl; lia);
  reflexivity.

(** C2: setting the operation mode and reading it back gives the name for
    [NORMAL] and [FORCED]; for [SLEEP = 0b11] the stored field value 3 indexes
    past the end of the three-entry name table and the read raises
    [IndexError]. *)
Theorem operation_mode_roundtrip (self : BMM150.t) (s : bus) :
  outcome (BMM150.set_operation_mode self NORMAL ;;;
           BMM150.operation_mode self) s = Ok "NORMAL" /\
  outcome (BMM150.set_operation_mode self FORCED ;;;
           BMM150.operation_mode self) s = Ok "FORCED" /\
  outcome (BMM150.set_operation_mode self SLEEP ;;;
           BMM150.operation_mode self) s = Raise IndexError.
Proof.
  unfold outcome, BMM150.set_operation_mode, BMM150.operation_mode.
  cbn [contains existsb operation_mode_values negb].
  repeat split; field_cycle.
Qed.

(** C3: setting the data rate and reading it back gives the name only for
    the four rates below [0b100]; the two-bit field keeps the two low bits of
    the value, so each of [RATE_15HZ] to [RATE_30HZ] reads back as the name of
    the rate four places earlier in the table. *)
Theorem data_rate_roundtrip (self : BMM150.t) (s : bus) :
  let set_get v :=
    outcome (BMM150.set_data_rate self v ;;; BMM150.data_rate self) s in
  set_get RATE_10HZ = Ok "RATE_10HZ" /\
  set_get RATE_2HZ = Ok "RATE_2HZ" /\
  set_get RATE_6HZ = Ok "RATE_6HZ" /\
  set_get RATE_8HZ = Ok "RATE_8HZ" /\
  set_get RATE_15HZ = Ok "RATE_10HZ" /\
  set_get RATE_20HZ = Ok "RATE_2HZ" /\
  set_get RATE_25HZ = Ok "RATE_6HZ" /\
  set_get RATE_30HZ = Ok "RATE_8HZ".
Proof.
  unfold outcome, BMM150.set_data_rate, BMM150.data_rate. cbv zeta.
  repeat split; field_cycle.
Qed.

(** C4: the data-rate field (bits 0-1) and the operation-mode field (bits
    1-2) are declared on the same register 0x4C and share exactly bit 1; on a
    cleared register, where the operation mode reads NORMAL, the accepted
    write [data_rate = RATE_6HZ] makes it read FORCED. *)
Theorem data_rate_overlaps_operation_mode :
  CBits.register_address BMM150._data_rate = 0x4C /\
  CBits.register_address BMM150._operation_mode = 0x4C /\
  CBits.bit_mask BMM150._data_rate = 3 /\
  CBits.bit_mask BMM150._operation_mode = 6 /\
  Z.land (CBits.bit_mask BMM150._data_rate)
         (CBits.bit_mask BMM150._operation_mode) = 2 ^ 1 /\
  exists (self : BMM150.t) (s : bus) (v : Z),
    outcome (BMM150.set_data_rate self v) s = Ok tt /\
    outcome (BMM150.operation_mode self) s = Ok "NORMAL" /\
    outcome (BMM150.operation_mode self)
            (after (BMM150.set_data_rate self v) s) = Ok "FORCED".
Proof.
  repeat split.
  exists (BMM150.mk 0x13), (mkBus (fun _ => 0) []), RATE_6HZ.
  repeat split.
Qed.

(** ** Validation of the configuration setters *)

Lemma contains_In (values : list Z) (value : Z) :
  contains values value = true <-> In value values.
Proof.
  unfold contains. rewrite existsb_exists. split.
  - intros (x & Hx & Heq). apply Z.eqb_eq in Heq. now subst.
  - intros Hin. exists value. split; [assumption | apply Z.eqb_refl].
Qed.

Lemma not_contains (values : list Z) (value : Z) :
  ~ In value values -> negb (contains values value) = true.
Proof.
  intros Hn. destruct (contains values value) eqn:E; [|reflexivity].
  apply contains_In in E. contradiction.
Qed.

(** C7: a value outside the legal set of [operation_mode], [data_rate] or
    [interrupt_mode] makes the setter raise [ValueError] and leaves the bus
    exactly as it was: no register changed, no transaction issued. *)
Theorem setters_validate_first (self : BMM150.t) (value : Z) (s : bus) :
  (~ In value [0; 1; 3] ->
   BMM150.set_operation_mode self value s
   = (Raise (ValueError "Value must be a valid operation_mode setting"), s)) /\
  (~ In value [0; 1; 2; 3; 4; 5; 6; 7] ->
   BMM150.set_data_rate self value s
   = (Raise (ValueError "Value must be a valid data_rate setting"), s)) /\
  (~ In value [0x00; 0x1F] ->
   BMM150.set_interrupt_mode self value s
   = (Raise (ValueError "Value must be a valid interrupt_mode setting"), s)).
Proof.
  repeat split; intros Hn.
  - unfold BMM150.set_operation_mode.
    rewrite not_contains; [reflexivity | exact Hn].
  - unfold BMM150.set_data_rate.
    rewrite not_contains; [reflexivity | exact Hn].
  - unfold BMM150.set_interrupt_mode.
    rewrite not_contains; [reflexivity|].
    intros Hin. apply Hn. simpl in *. tauto.
Qed.

Lemma setters_validate_first_witness :
  let self := BMM150.mk 0x13 in
  let s := mkBus (fun _ => 0x2A) [ReadFromMem 0x13 0x40 1] in
  BMM150.set_operation_mode self 2 s
  = (Raise (ValueError "Value must be a valid operation_mode setting"), s) /\
  BMM150.set_data_rate self 8 s
  = (Raise (ValueError "Value must be a valid data_rate setting"), s) /\
  BMM150.set_interrupt_mode self 0xFF s
  = (Raise (ValueError "Value must be a valid interrupt_mode setting"), s).
Proof.
  intros self s. split; [|split].
  - apply (proj1 (setters_validate_first self 2 s)). simpl. lia.
  - apply (proj1 (proj2 (setters_validate_first self 8 s))). simpl. lia.
  - apply (proj2 (proj2 (setters_validate_first self 0xFF s))). simpl. lia.
Defined.

(** ** Interrupt mode *)

(** C9: the enabled constant is 0x00 and the disabled constant is 0x1F;
    setting the interrupt mode to either stores that byte in register 0x4D,
    and reading the mode back looks the byte up in the two-entry table and
    gives the matching name. *)
Theorem interrupt_mode_roundtrip (self : BMM150.t) (s : bus) :
  INT_ENABLED = 0x00 /\ INT_DISABLED = 0x1F /\
  regs (after (BMM150.set_interrupt_mode self INT_ENABLED) s) 0x4D = 0x00 /\
  regs (after (BMM150.set_interrupt_mode self INT_DISABLED) s) 0x4D = 0x1F /\
  outcome (BMM150.set_interrupt_mode self INT_ENABLED ;;;
           BMM150.interrupt_mode self) s = Ok "INT_ENABLED" /\
  outcome (BMM150.set_interrupt_mode self INT_DISABLED ;;;
           BMM150.interrupt_mode self) s = Ok "INT_DISABLED".
Proof. repeat split. Qed.

(** ** Interrupt status *)

Lemma flag_bit (data n : Z) :
  0 <= n ->
  Z.shiftr (Z.land data (2 ^ n)) n = Z.b2z (Z.testbit data n).
Proof.
  intros Hn.
  rewrite Z.shiftr_land. rewrite <- (Z.shiftl_1_l n).
  rewrite Z.shiftr_shiftl_l by lia.
  rewrite Z.sub_diag, Z.shiftl_0_r.
  change 1 with (Z.ones 1) at 1. rewrite Z.land_ones by lia.
  change (2 ^ 1) with 2. rewrite Z.shiftr_div_pow2 by assumption.
  symmetry. now apply Z.testbit_spec'.
Qed.

Lemma le_combine_one (v : Z) : le_combine [v] = v.
Proof. simpl. lia. Qed.

Lemma status_interrupt_run (self : BMM150.t) (s : bus) :
  outcome (BMM150.status_interrupt self) s =
  let data := regs s 0x4A in
  Ok (mkAlertStatus
        (Z.shiftr (Z.land data 0x08) 3)
        (Z.shiftr (Z.land data 0x10) 4)
        (Z.shiftr (Z.land data 0x20) 5)
        (Z.land data 0x01)
        (Z.shiftr (Z.land data 0x02) 1)
        (Z.shiftr (Z.land data 0x04) 2)).
Proof.
  unfold outcome, BMM150.status_interrupt, RegisterStruct.get, bind.
  cbn -[Z.shiftr Z.land Z.add Z.mul].
  replace (regs s 74 + 256 * 0) with (regs s 74) by lia. reflexivity.
Qed.

(** C6: for every status byte in register 0x4A, [status_interrupt] returns
    the flags high_z = bit 5, high_y = bit 4, high_x = bit 3, low_z = bit 2,
    low_y = bit 1, low_x = bit 0, each of them 0 or 1; the byte 0b00101001
    gives high_z = 1, high_y = 0, high_x = 1, low_z = 0, low_y = 0,
    low_x = 1. *)
Theorem status_interrupt_decode (self : BMM150.t) (s : bus) :
  let b := regs s 0x4A in
  let bit n := Z.b2z (Z.testbit b n) in
  outcome (BMM150.status_interrupt self) s
  = Ok {| high_x := bit 3; high_y := bit 4; high_z := bit 5;
          low_x := bit 0; low_y := bit 1; low_z := bit 2 |} /\
  (forall n, bit n = 0 \/ bit n = 1) /\
  (b = 41 ->
   outcome (BMM150.status_interrupt self) s
   = Ok {| high_x := 1; high_y := 0; high_z := 1;
           low_x := 1; low_y := 0; low_z := 0 |}).
Proof.
  intros b bit. rewrite status_interrupt_run. cbv zeta. fold b.
  split; [|split].
  - unfold bit.
    rewrite <- (flag_bit b 3), <- (flag_bit b 4), <- (flag_bit b 5),
      <- (flag_bit b 0), <- (flag_bit b 1), <- (flag_bit b 2) by lia.
    rewrite Z.shiftr_0_r. reflexivity.
  - intros n. unfold bit. destruct (Z.testbit b n); simpl; lia.
  - intros ->. reflexivity.
Qed.

Lemma status_interrupt_decode_witness :
  outcome (BMM150.status_interrupt (BMM150.mk 0x13))
          (mkBus (fun a => if a =? 0x4A then 41 else 0) [])
  = Ok {| high_x := 1; high_y := 0; high_z := 1;
          low_x := 1; low_y := 0; low_z := 0 |}.
Proof.
  apply (status_interrupt_decode (BMM150.mk 0x13)
           (mkBus (fun a => if a =? 0x4A then 41 else 0) [])).
  reflexivity.
Defined.

(** ** Single-byte structured registers *)

Lemma get_byte_run (reg : Z) (le : bool) (addr : Z) (s : bus) :
  RegisterStruct.get (RegisterStruct.mk reg le [RegisterStruct.B]) addr s
  = (Ok (regs s reg), mkBus (regs s) (trace s ++ [ReadFromMem addr reg 1])).
Proof.
  unfold RegisterStruct.get, bind, readfrom_mem, ret. cbn.
  unfold RegisterStruct.decode_field, combine_bytes. cbn.
  destruct le; cbn; now replace (regs s reg + 0) with (regs s reg) by lia.
Qed.

Lemma set_byte_run (reg : Z) (le : bool) (addr q : Z) (s : bus) :
  0 <= q < 256 ->
  RegisterStruct.set (RegisterStruct.mk reg le [RegisterStruct.B]) addr q s
  = (Ok tt,
     mkBus (store (regs s) reg [q]) (trace s ++ [WriteToMem addr reg [q]])).
Proof.
  intros Hq.
  unfold RegisterStruct.set, RegisterStruct.encode, RegisterStruct.pack.
  cbn [RegisterStruct.fields RegisterStruct.little_endian
       RegisterStruct.register_address].
  unfold RegisterStruct.in_range, RegisterStruct.encode_field.
  cbn [RegisterStruct.signed RegisterStruct.B RegisterStruct.width].
  change (2 ^ RegisterStruct.bits RegisterStruct.B) with 256.
  replace (0 <=? q) with true by (symmetry; apply Z.leb_le; lia).
  replace (q <? 256) with true by (symmetry; apply Z.ltb_lt; lia).
  cbn [andb]. unfold split_bytes.
  assert (Hb : le_split 1 (q mod 256) = [q]).
  { cbn [le_split]. now rewrite Z.mod_mod, Z.mod_small by lia. }
  destruct le; rewrite Hb; reflexivity.
Qed.

(** ** Thresholds *)

Lemma threshold_cycle (reg : Z) (self : BMM150.t) (n : Z) (s : bus) :
  0 <= n < 4096 ->
  let d := RegisterStruct.mk reg true [RegisterStruct.B] in
  let set := RegisterStruct.set d (BMM150._address self) (Z.quot n 16) in
  let get := v <- RegisterStruct.get d (BMM150._address self) ;; ret (v * 16) in
  outcome set s = Ok tt /\
  regs (after set s) reg = n / 16 /\
  outcome (set ;;; get) s = Ok (n / 16 * 16).
Proof.
  intros Hn d set get.
  assert (Hq : 0 <= n / 16 < 256).
  { split; [apply Z.div_pos; lia | apply Z.div_lt_upper_bound; lia]. }
  assert (Hset : set s = (Ok tt,
            mkBus (store (regs s) reg [n / 16])
              (trace s ++ [WriteToMem (BMM150._address self) reg [n / 16]]))).
  { subst set d. rewrite Z.quot_div_nonneg by lia. now apply set_byte_run. }
  unfold outcome, after. rewrite (bind_ok _ _ _ _ _ Hset), Hset. cbn [fst snd regs].
  assert (Hreg : store (regs s) reg [n / 16] reg = n / 16).
  { cbn. unfold upd. now rewrite Z.eqb_refl. }
  split; [reflexivity | split; [exact Hreg|]].
  subst get d. erewrite bind_ok by apply get_byte_run.
  cbn [fst ret regs]. now rewrite Hreg.
Qed.

(** C1: for every [n] the threshold registers can represent, [0 <= n < 4096],
    writing [high_threshold = n] (and likewise [low_threshold]) stores the
    byte [n / 16] and reading back returns that byte times 16, which is [n]
    rounded down to a multiple of 16, and [n] itself when [n] is a multiple of
    16; in every bus state the value read is the stored byte times 16. *)
Theorem threshold_roundtrip (self : BMM150.t) (n : Z) (s : bus) :
  0 <= n < 4096 ->
  let cycle (set : Z -> M unit) (get : M Z) (reg : Z) :=
    let stored := regs (after (set n) s) reg in
    outcome (set n) s = Ok tt /\
    stored = n / 16 /\
    outcome (set n ;;; get) s = Ok (stored * 16) /\
    (stored * 16) mod 16 = 0 /\
    stored * 16 <= n < stored * 16 + 16 /\
    (n mod 16 = 0 -> outcome (set n ;;; get) s = Ok n) in
  cycle (BMM150.set_high_threshold self) (BMM150.high_threshold self)
        _HIGH_THRESHOLD /\
  cycle (BMM150.set_low_threshold self) (BMM150.low_threshold self)
        _LOW_THRESHOLD /\
  (forall s',
      outcome (BMM150.high_threshold self) s' = Ok (regs s' _HIGH_THRESHOLD * 16) /\
      outcome (BMM150.low_threshold self) s' = Ok (regs s' _LOW_THRESHOLD * 16)).
Proof.
  intros Hn cycle.
  assert (Hfloor : (n / 16 * 16) mod 16 = 0 /\
                   n / 16 * 16 <= n < n / 16 * 16 + 16 /\
                   (n mod 16 = 0 -> n / 16 * 16 = n)).
  { pose proof (Z.div_mod n 16 ltac:(lia)).
    pose proof (Z.mod_pos_bound n 16 ltac:(lia)).
    split; [apply Z.mod_mul; lia | lia]. }
  destruct Hfloor as (Hmul & Hle & Hexact).
  assert (Hcycle : forall reg,
             cycle (fun v => RegisterStruct.set
                      (RegisterStruct.mk reg true [RegisterStruct.B])
                      (BMM150._address self) (Z.quot v 16))
                   (v <- RegisterStruct.get
                           (RegisterStruct.mk reg true [RegisterStruct.B])
                           (BMM150._address self) ;; ret (v * 16))
                   reg).
  { intros reg. destruct (threshold_cycle reg self n s Hn) as (H1 & H2 & H3).
    unfold cycle. cbv zeta in *. rewrite H2.
    repeat split; try assumption; try lia.
    intros Hm. rewrite H3. f_equal. now apply Hexact. }
  split; [apply (Hcycle _HIGH_THRESHOLD) | split; [apply (Hcycle _LOW_THRESHOLD)|]].
  intros s'. unfold outcome, BMM150.high_threshold, BMM150.low_threshold.
  split; (erewrite bind_ok by apply get_byte_run); reflexivity.
Qed.

Lemma threshold_roundtrip_witness :
  let self := BMM150.mk 0x13 in
  let s := mkBus (fun _ => 0) [] in
  regs (after (BMM150.set_high_threshold self 100) s) _HIGH_THRESHOLD = 6 /\
  outcome (BMM150.set_high_threshold self 100 ;;;
           BMM150.high_threshold self) s = Ok 96.
Proof.
  intros self s.
  destruct (threshold_roundtrip self 100 s ltac:(lia))
    as ((_ & Hstored & Hread & _) & _).
  rewrite Hstored in Hread. split; [exact Hstored | exact Hread].
Defined.

(** X17: below zero [int(value / 16)] truncates toward zero: each of the
    fifteen values above -16 is stored as the byte 0 and read back as 0. *)
Lemma threshold_negative_truncates (self : BMM150.t) (n : Z) (s : bus) :
  -16 < n < 0 ->
  regs (after (BMM150.set_high_threshold self n) s) _HIGH_THRESHOLD = 0 /\
  outcome (BMM150.set_high_threshold self n ;;;
           BMM150.high_threshold self) s = Ok 0 /\
  regs (after (BMM150.set_low_threshold self n) s) _LOW_THRESHOLD = 0 /\
  outcome (BMM150.set_low_threshold self n ;;;
           BMM150.low_threshold self) s = Ok 0.
Proof.
  intros Hn.
  assert (Hq : Z.quot n 16 = 0).
  { replace n with (- - n) by lia.
    rewrite Z.quot_opp_l, Z.quot_small by lia. reflexivity. }
  unfold BMM150.set_high_threshold, BMM150.set_low_threshold. rewrite Hq.
  repeat split.
Qed.

(** ** Measurements *)

Lemma decode_int16_le (x : Z) :
  int16 x ->
  RegisterStruct.decode_field true RegisterStruct.h (int16_le x) = x.
Proof.
  unfold int16. change (2 ^ 15) with 32768. intros Hx.
  unfold RegisterStruct.decode_field, int16_le, combine_bytes.
  cbn [RegisterStruct.signed RegisterStruct.h andb le_combine].
  change (RegisterStruct.bits RegisterStruct.h) with 16.
  change (2 ^ (16 - 1)) with 32768. change (2 ^ 16) with 65536.
  pose proof (Z.div_mod (x mod 65536) 256 ltac:(lia)) as Hsplit.
  replace ((x mod 65536) mod 256 + 256 * (x mod 65536 / 256 + 256 * 0))
    with (x mod 65536) by lia.
  assert (Hu : x mod 65536 = if x <? 0 then x + 65536 else x).
  { destruct (Z.ltb_spec x 0) as [Hx0|Hx0].
    - rewrite <- (Z.mod_add x 1 65536) by lia. apply Z.mod_small. lia.
    - apply Z.mod_small. lia. }
  rewrite Hu.
  destruct (Z.ltb_spec x 0) as [Hx0|Hx0];
    [destruct (Z.leb_spec 32768 (x + 65536)) | destruct (Z.leb_spec 32768 x)];
    lia.
Qed.

Lemma firstn_int16_le (x : Z) (rest : list Z) :
  firstn 2 (int16_le x ++ rest) = int16_le x.
Proof. reflexivity. Qed.

Lemma firstn_int16_le_last (x : Z) : firstn 2 (int16_le x) = int16_le x.
Proof. reflexivity. Qed.

Lemma skipn_int16_le (x : Z) (rest : list Z) :
  skipn 2 (int16_le x ++ rest) = rest.
Proof. reflexivity. Qed.

(** C5: when the data registers hold the little-endian two's-complement
    bytes of the signed 16-bit samples x, y, z and hall, [measurements]
    returns (x >> 3, y >> 3, z >> 1, hall >> 2), the shift being the
    arithmetic one: the floor of the division by 8, 8, 2 and 4, for negative
    samples as well. *)
Theorem measurements_decode (self : BMM150.t) (s : bus) (x y z hall : Z) :
  int16 x -> int16 y -> int16 z -> int16 hall ->
  fetch (regs s) _DATA 8
  = int16_le x ++ int16_le y ++ int16_le z ++ int16_le hall ->
  outcome (BMM150.measurements self) s
  = Ok (Z.shiftr x 3, Z.shiftr y 3, Z.shiftr z 1, Z.shiftr hall 2) /\
  Z.shiftr x 3 = x / 8 /\ Z.shiftr y 3 = y / 8 /\
  Z.shiftr z 1 = z / 2 /\ Z.shiftr hall 2 = hall / 4.
Proof.
  intros Hx Hy Hz Hh Hregs. split.
  - unfold outcome, BMM150.measurements, RegisterStruct.get, bind, readfrom_mem.
    change (RegisterStruct.calcsize (RegisterStruct.fields BMM150._raw_data))
      with 8%nat.
    change (RegisterStruct.register_address BMM150._raw_data) with _DATA.
    rewrite Hregs.
    cbn [ret BMM150._raw_data RegisterStruct.fields
         RegisterStruct.little_endian RegisterStruct.decode].
    unfold RegisterStruct.unpack.
    change (RegisterStruct.width RegisterStruct.h) with 2%nat.
    rewrite !skipn_int16_le, !firstn_int16_le, firstn_int16_le_last.
    rewrite !decode_int16_le by assumption.
    reflexivity.
  - rewrite !Z.shiftr_div_pow2 by lia. repeat split.
Qed.

Lemma measurements_decode_witness :
  let bytes := [255; 255; 64; 0; 253; 255; 0; 128] in
  let s := mkBus (fun a => nth (Z.to_nat (a - _DATA)) bytes 0) [] in
  outcome (BMM150.measurements (BMM150.mk 0x13)) s = Ok (-1, 8, -2, -8192).
Proof.
  intros bytes s.
  apply (measurements_decode (BMM150.mk 0x13) s (-1) 64 (-3) (-32768));
    try (unfold int16; simpl; lia).
  reflexivity.
Defined.

(** ** Construction *)

(** The read-modify-write of a field within one register. *)
Lemma CBits_set_byte_run (c : CBits.t) (addr v : Z) (s : bus) :
  CBits.span c = 1%nat -> CBits.fills_span c = false ->
  let reg := CBits.register_address c in
  let p := CBits.insert c (regs s reg) v mod 2 ^ 8 in
  CBits.set c addr v s =
  (Ok tt,
   mkBus (upd (regs s) reg p)
     (trace s ++ [ReadFromMem addr reg 1; WriteToMem addr reg [p]])).
Proof.
  intros Hspan Hfull reg p. rewrite CBits_set_run. cbv zeta.
  unfold image. rewrite Hspan, Hfull.
  assert (Hb : forall o w, split_bytes o 1 w = [w mod 2 ^ 8])
    by (intros [] w; reflexivity).
  assert (Hc : forall o r, combine_bytes o [r] = r)
    by (intros [] r; cbn; lia).
  cbn [fetch]. rewrite Hc, Hb. reflexivity.
Qed.


(** * Further properties of the driver *)

(** ** What the getters do to the bus *)

Lemma tuple_getitem_state {A} (values : list A) (i : Z) (s : bus) :
  snd (tuple_getitem values i s) = s.
Proof.
  unfold tuple_getitem.
  destruct (_ && _); [destruct (nth_error _ _)|]; reflexivity.
Qed.

Lemma dict_getitem_state {A} (values : list (Z * A)) (key : Z) (s : bus) :
  snd (dict_getitem values key s) = s.
Proof. unfold dict_getitem. destruct (dict_lookup _ _); reflexivity. Qed.

(** X1: every property getter leaves the register file as it found it and
    adds exactly one read to the transaction log, whether it returns or
    raises: one byte for the field and single-byte properties, the eight data
    bytes for [measurements]. *)
Theorem getters_read_only (self : BMM150.t) (s : bus) :
  let addr := BMM150._address self in
  let reads reg n := mkBus (regs s) (trace s ++ [ReadFromMem addr reg n]) in
  after (BMM150.operation_mode self) s = reads _OPERATION_MODE 1%nat /\
  after (BMM150.data_rate self) s = reads _OPERATION_MODE 1%nat /\
  after (BMM150.interrupt_mode self) s = reads 0x4D 1%nat /\
  after (BMM150.high_threshold self) s = reads _HIGH_THRESHOLD 1%nat /\
  after (BMM150.low_threshold self) s = reads _LOW_THRESHOLD 1%nat /\
  after (BMM150.status_interrupt self) s = reads 0x4A 1%nat /\
  after (BMM150.measurements self) s = reads _DATA 8%nat.
Proof.
  intros addr reads. unfold after.
  repeat split.
  - unfold BMM150.operation_mode.
    erewrite bind_ok by apply CBits_get_run. apply tuple_getitem_state.
  - unfold BMM150.data_rate.
    erewrite bind_ok by apply CBits_get_run. apply tuple_getitem_state.
  - unfold BMM150.interrupt_mode.
    erewrite bind_ok by apply get_byte_run. apply dict_getitem_state.
Qed.

(** ** Decoding the mode register *)

Lemma image_one_byte (c : CBits.t) (f : Z -> Z) :
  CBits.span c = 1%nat -> image c f = f (CBits.register_address c).
Proof.
  intros Hspan. unfold image. rewrite Hspan. cbn [fetch].
  unfold combine_bytes. destruct (CBits.lsb_first c); cbn; lia.
Qed.

Lemma two_bit_field (x : Z) :
  Z.land x (Z.ones 2)
  = Z.b2z (Z.testbit x 0) + 2 * Z.b2z (Z.testbit x 1).
Proof.
  rewrite Z.land_ones by lia.
  rewrite !Z.testbit_spec' by lia.
  change (2 ^ 2) with (2 * 2). rewrite Z.rem_mul_r by lia.
  change (2 ^ 0) with 1. change (2 ^ 1) with 2. now rewrite Z.div_1_r.
Qed.

Lemma operation_mode_by_bits (self : BMM150.t) (s : bus) :
  outcome (BMM150.operation_mode self) s
  = match Z.testbit (regs s _OPERATION_MODE) 2,
          Z.testbit (regs s _OPERATION_MODE) 1 with
    | false, false => Ok "NORMAL"
    | false, true => Ok "FORCED"
    | true, false => Ok "SLEEP"
    | true, true => Raise IndexError
    end.
Proof.
  unfold outcome, BMM150.operation_mode.
  erewrite bind_ok by apply CBits_get_run.
  rewrite image_one_byte by reflexivity.
  unfold CBits.extract.
  cbn [CBits.start_bit CBits.num_bits CBits.register_address
       BMM150._operation_mode regs].
  rewrite two_bit_field, !Z.shiftr_spec by lia.
  change (0 + 1) with 1. change (1 + 1) with 2.
  destruct (Z.testbit _ 2), (Z.testbit _ 1); reflexivity.
Qed.

Lemma data_rate_by_bits (self : BMM150.t) (s : bus) :
  outcome (BMM150.data_rate self) s
  = match Z.testbit (regs s _OPERATION_MODE) 1,
          Z.testbit (regs s _OPERATION_MODE) 0 with
    | false, false => Ok "RATE_10HZ"
    | false, true => Ok "RATE_2HZ"
    | true, false => Ok "RATE_6HZ"
    | true, true => Ok "RATE_8HZ"
    end.
Proof.
  unfold outcome, BMM150.data_rate.
  erewrite bind_ok by apply CBits_get_run.
  rewrite image_one_byte by reflexivity.
  unfold CBits.extract.
  cbn [CBits.start_bit CBits.num_bits CBits.register_address
       BMM150._data_rate regs].
  rewrite Z.shiftr_0_r, two_bit_field.
  destruct (Z.testbit _ 1), (Z.testbit _ 0); reflexivity.
Qed.

(** X2: the operation mode read is decided by bits 1 and 2 of register 0x4C:
    both clear reads NORMAL, bit 1 alone FORCED, bit 2 alone (field value
    0b10, which no constant names) SLEEP, and both set (the code of SLEEP)
    raises [IndexError]. *)
Theorem operation_mode_decode (self : BMM150.t) (s : bus) :
  let b := regs s _OPERATION_MODE in
  outcome (BMM150.operation_mode self) s
  = match Z.testbit b 2, Z.testbit b 1 with
    | false, false => Ok "NORMAL"
    | false, true => Ok "FORCED"
    | true, false => Ok "SLEEP"
    | true, true => Raise IndexError
    end.
Proof. intros b. subst b. apply operation_mode_by_bits. Qed.

(** X3: the data rate read never raises and only ever names one of the four
    rates below 0b100, chosen by bits 0 and 1 of register 0x4C; no register
    content reads as RATE_15HZ, RATE_20HZ, RATE_25HZ or RATE_30HZ. *)
Theorem data_rate_decode (self : BMM150.t) (s : bus) :
  let b := regs s _OPERATION_MODE in
  outcome (BMM150.data_rate self) s
  = match Z.testbit b 1, Z.testbit b 0 with
    | false, false => Ok "RATE_10HZ"
    | false, true => Ok "RATE_2HZ"
    | true, false => Ok "RATE_6HZ"
    | true, true => Ok "RATE_8HZ"
    end.
Proof. intros b. subst b. apply data_rate_by_bits. Qed.

(** X4: the interrupt mode read looks the byte of register 0x4D up in the
    two-entry dict: 0x1F reads INT_DISABLED, 0x00 reads INT_ENABLED, and every
    other byte (0xFF among them) raises [KeyError] with that byte as key. *)
Theorem interrupt_mode_decode (self : BMM150.t) (s : bus) :
  let b := regs s 0x4D in
  outcome (BMM150.interrupt_mode self) s
  = if b =? 0x1F then Ok "INT_DISABLED"
    else if b =? 0x00 then Ok "INT_ENABLED"
    else Raise (KeyError b).
Proof.
  intros b. unfold outcome, BMM150.interrupt_mode.
  erewrite bind_ok by apply get_byte_run. fold b.
  unfold dict_getitem, dict_lookup, INT_DISABLED, INT_ENABLED.
  destruct (b =? 31); [reflexivity|]. destruct (b =? 0); reflexivity.
Qed.

(** ** What a field write does to its register *)

(** The byte a one-register field write sends, bit by bit. *)
Lemma written_byte_bit (c : CBits.t) (r v i : Z) :
  0 <= CBits.start_bit c -> 0 <= CBits.num_bits c -> 0 <= i < 8 ->
  Z.testbit (CBits.insert c r v mod 2 ^ 8) i
  = (Z.testbit r i
     && negb ((CBits.start_bit c <=? i)
              && (i <? CBits.start_bit c + CBits.num_bits c)))
    || Z.testbit v (i - CBits.start_bit c).
Proof.
  intros Hs Hn Hi. rewrite Z.mod_pow2_bits_low by lia.
  unfold CBits.insert, CBits.bit_mask.
  rewrite Z.lor_spec, Z.land_spec, Z.lnot_spec, Z.shiftl_spec by lia.
  rewrite (Z.shiftl_spec v) by lia. f_equal. f_equal. f_equal.
  destruct (Z.leb_spec (CBits.start_bit c) i) as [Hle|Hlt].
  - rewrite Z.testbit_ones_nonneg by lia. cbn [andb].
    destruct (Z.ltb_spec (i - CBits.start_bit c) (CBits.num_bits c)),
      (Z.ltb_spec i (CBits.start_bit c + CBits.num_bits c));
      (reflexivity || lia).
  - now rewrite Z.testbit_neg_r by lia.
Qed.

Lemma written_byte_range (c : CBits.t) (r v : Z) :
  0 <= CBits.insert c r v mod 2 ^ 8 < 256.
Proof. apply Z.mod_pos_bound. reflexivity. Qed.

Lemma byte_bits_above (r i : Z) : 0 <= r < 256 -> 8 <= i -> Z.testbit r i = false.
Proof. intros Hr Hi. apply (testbit_above r 8); [exact Hr | exact Hi]. Qed.

Lemma upd_same (f : Z -> Z) (a v : Z) : upd f a v a = v.
Proof. unfold upd. now rewrite Z.eqb_refl. Qed.

Lemma upd_other (f : Z -> Z) (a v x : Z) : x <> a -> upd f a v x = f x.
Proof. intros Hx. unfold upd. now destruct (Z.eqb_spec x a). Qed.

(** X5: a legal operation-mode write succeeds as one read followed by one
    write of register 0x4C, puts the value in bits 1 and 2, and changes
    nothing else: every other bit of 0x4C and every other register keep
    their content. *)
Theorem set_operation_mode_frame (self : BMM150.t) (value : Z) (s : bus) :
  wf_regs (regs s) ->
  In value operation_mode_values ->
  let addr := BMM150._address self in
  let s' := after (BMM150.set_operation_mode self value) s in
  outcome (BMM150.set_operation_mode self value) s = Ok tt /\
  trace s' = trace s ++ [ReadFromMem addr _OPERATION_MODE 1;
                         WriteToMem addr _OPERATION_MODE
                           [regs s' _OPERATION_MODE]] /\
  Z.testbit (regs s' _OPERATION_MODE) 1 = Z.testbit value 0 /\
  Z.testbit (regs s' _OPERATION_MODE) 2 = Z.testbit value 1 /\
  (forall i, i <> 1 -> i <> 2 ->
     Z.testbit (regs s' _OPERATION_MODE) i
     = Z.testbit (regs s _OPERATION_MODE) i) /\
  (forall a, a <> _OPERATION_MODE -> regs s' a = regs s a).
Proof.
  intros Hwf Hin addr s'.
  assert (Hrun : BMM150.set_operation_mode self value s
                 = CBits.set BMM150._operation_mode addr value s).
  { unfold BMM150.set_operation_mode.
    destruct (contains operation_mode_values value) eqn:Hc; [reflexivity|].
    apply contains_In in Hin. congruence. }
  subst s'. unfold outcome, after. rewrite Hrun.
  rewrite CBits_set_byte_run by reflexivity. cbn [fst snd regs trace].
  change (CBits.register_address BMM150._operation_mode) with _OPERATION_MODE.
  rewrite upd_same.
  split; [reflexivity | split; [reflexivity|]].
  split; [|split; [|split]].
  - rewrite written_byte_bit by (simpl; lia).
    cbn [CBits.start_bit CBits.num_bits BMM150._operation_mode].
    change ((1 <=? 1) && (1 <? 1 + 2)) with true. change (1 - 1) with 0.
    cbn [negb]. now rewrite andb_false_r.
  - rewrite written_byte_bit by (simpl; lia).
    cbn [CBits.start_bit CBits.num_bits BMM150._operation_mode].
    change ((1 <=? 2) && (2 <? 1 + 2)) with true. change (2 - 1) with 1.
    cbn [negb]. now rewrite andb_false_r.
  - intros i H1 H2.
    destruct (Z.ltb_spec i 0) as [Hneg|Hpos]; [now rewrite !Z.testbit_neg_r|].
    destruct (Z.ltb_spec i 8) as [Hlow|Hhigh].
    + rewrite written_byte_bit by (simpl; lia).
      cbn [CBits.start_bit CBits.num_bits BMM150._operation_mode].
      assert (Hv : Z.testbit value (i - 1) = false).
      { destruct (Z.eq_dec i 0) as [->|Hi0]; [now rewrite Z.testbit_neg_r|].
        apply (testbit_above value 2); [|lia].
        simpl in Hin. unfold NORMAL, FORCED, SLEEP in Hin.
        change (2 ^ 2) with 4. lia. }
      rewrite Hv, orb_false_r.
      replace ((1 <=? i) && (i <? 1 + 2)) with false; [apply andb_true_r|].
      symmetry. apply andb_false_iff.
      destruct (Z.leb_spec 1 i); [right; apply Z.ltb_ge; lia | now left].
    + rewrite (byte_bits_above (regs s _OPERATION_MODE))
        by (first [apply Hwf | lia]).
      apply byte_bits_above; [apply written_byte_range | lia].
  - intros a Ha. now apply upd_other.
Qed.

Lemma set_operation_mode_frame_witness :
  let self := BMM150.mk 0x13 in
  let s := mkBus (fun _ => 0xFF) [] in
  let s' := after (BMM150.set_operation_mode self FORCED) s in
  regs s' _OPERATION_MODE = 0xFB /\ regs s' _POWER_CONTROL = 0xFF.
Proof.
  intros self s s'.
  assert (Hwf : wf_regs (regs s)) by (intros a; simpl; lia).
  destruct (set_operation_mode_frame self FORCED s Hwf
              ltac:(simpl; tauto)) as (_ & _ & H1 & H2 & Hbits & Hregs).
  split; [reflexivity|]. apply Hregs. discriminate.
Defined.


(** ** How the two fields of register 0x4C disturb each other *)

Lemma set_data_rate_run (self : BMM150.t) (value : Z) (s : bus) :
  In value data_rate_values ->
  let addr := BMM150._address self in
  let p := CBits.insert BMM150._data_rate (regs s _OPERATION_MODE) value
           mod 2 ^ 8 in
  BMM150.set_data_rate self value s
  = (Ok tt,
     mkBus (upd (regs s) _OPERATION_MODE p)
       (trace s ++ [ReadFromMem addr _OPERATION_MODE 1;
                    WriteToMem addr _OPERATION_MODE [p]])).
Proof.
  intros Hin addr p. unfold BMM150.set_data_rate.
  destruct (contains data_rate_values value) eqn:Hc.
  - cbn [negb]. now rewrite CBits_set_byte_run by reflexivity.
  - apply contains_In in Hin. congruence.
Qed.

Lemma set_operation_mode_run (self : BMM150.t) (value : Z) (s : bus) :
  In value operation_mode_values ->
  let addr := BMM150._address self in
  let p := CBits.insert BMM150._operation_mode (regs s _OPERATION_MODE) value
           mod 2 ^ 8 in
  BMM150.set_operation_mode self value s
  = (Ok tt,
     mkBus (upd (regs s) _OPERATION_MODE p)
       (trace s ++ [ReadFromMem addr _OPERATION_MODE 1;
                    WriteToMem addr _OPERATION_MODE [p]])).
Proof.
  intros Hin addr p. unfold BMM150.set_operation_mode.
  destruct (contains operation_mode_values value) eqn:Hc.
  - cbn [negb]. now rewrite CBits_set_byte_run by reflexivity.
  - apply contains_In in Hin. congruence.
Qed.

(** Evaluate a read of one field after a legal write of the other. *)
Ltac cross_talk run decode :=
  unfold outcome;
  erewrite bind_ok by (apply run; simpl; tauto);
  match goal with
  | |- fst (?m ?s1) = _ => change (fst (m s1)) with (outcome m s1)
  end;
  rewrite decode; cbn [regs]; rewrite upd_same;
  rewrite !written_byte_bit by (simpl; lia);
  repeat match goal with
         | |- context [Z.testbit (regs ?s ?a) ?i] =>
             generalize (Z.testbit (regs s a) i); intro
         end.

(** X6: whatever register 0x4C held, the operation mode reads SLEEP right
    after the accepted writes [data_rate = RATE_15HZ] and [RATE_20HZ], and
    raises [IndexError] right after [RATE_25HZ] and [RATE_30HZ]: bit 2 of
    these values lands in the operation-mode field. *)
Theorem data_rate_write_sets_operation_mode (self : BMM150.t) (s : bus) :
  let then_mode v :=
    outcome (BMM150.set_data_rate self v ;;; BMM150.operation_mode self) s in
  then_mode RATE_15HZ = Ok "SLEEP" /\
  then_mode RATE_20HZ = Ok "SLEEP" /\
  then_mode RATE_25HZ = Raise IndexError /\
  then_mode RATE_30HZ = Raise IndexError.
Proof.
  cbv zeta. repeat split;
    cross_talk set_data_rate_run operation_mode_by_bits;
    repeat match goal with b : bool |- _ => destruct b end; reflexivity.
Qed.

(** X7: a legal operation-mode write decides the upper bit of the data-rate
    field: after NORMAL the data rate reads RATE_10HZ or RATE_2HZ, after
    FORCED or SLEEP it reads RATE_6HZ or RATE_8HZ, the choice within each
    pair being bit 0 of register 0x4C before the write. *)
Theorem operation_mode_write_sets_data_rate (self : BMM150.t) (s : bus) :
  let b0 := Z.testbit (regs s _OPERATION_MODE) 0 in
  let then_rate v :=
    outcome (BMM150.set_operation_mode self v ;;; BMM150.data_rate self) s in
  then_rate NORMAL = Ok (if b0 then "RATE_2HZ" else "RATE_10HZ") /\
  then_rate FORCED = Ok (if b0 then "RATE_8HZ" else "RATE_6HZ") /\
  then_rate SLEEP = Ok (if b0 then "RATE_8HZ" else "RATE_6HZ").
Proof.
  cbv zeta. repeat split;
    cross_talk set_operation_mode_run data_rate_by_bits;
    repeat match goal with b : bool |- _ => destruct b end; reflexivity.
Qed.

(** X8: the register a legal data-rate write leaves behind: bits 0 and 1 of
    0x4C are bits 0 and 1 of the value, bit 2 is the old bit 2 ORed with bit
    2 of the value (so the rates from RATE_15HZ up set it and no rate clears
    it), the bits above and every other register are unchanged. *)
Theorem set_data_rate_register (self : BMM150.t) (value : Z) (s : bus) :
  wf_regs (regs s) ->
  In value data_rate_values ->
  let r := regs s _OPERATION_MODE in
  let s' := after (BMM150.set_data_rate self value) s in
  let r' := regs s' _OPERATION_MODE in
  outcome (BMM150.set_data_rate self value) s = Ok tt /\
  Z.testbit r' 0 = Z.testbit value 0 /\
  Z.testbit r' 1 = Z.testbit value 1 /\
  Z.testbit r' 2 = Z.testbit r 2 || Z.testbit value 2 /\
  (forall i, 3 <= i -> Z.testbit r' i = Z.testbit r i) /\
  (forall a, a <> _OPERATION_MODE -> regs s' a = regs s a).
Proof.
  intros Hwf Hin r s' r'.
  assert (Hv : 0 <= value < 2 ^ 3).
  { simpl in Hin.
    unfold RATE_10HZ, RATE_2HZ, RATE_6HZ, RATE_8HZ, RATE_15HZ, RATE_20HZ,
      RATE_25HZ, RATE_30HZ in Hin.
    change (2 ^ 3) with 8. lia. }
  subst r' s'. unfold outcome, after.
  rewrite set_data_rate_run by assumption. cbn [fst snd regs].
  rewrite upd_same. fold r.
  split; [reflexivity|].
  assert (Hbit : forall i, 0 <= i < 8 ->
            Z.testbit (CBits.insert BMM150._data_rate r value mod 2 ^ 8) i
            = Z.testbit r i && negb (i <? 2) || Z.testbit value i).
  { intros i Hi. rewrite written_byte_bit by (simpl; lia).
    cbn [CBits.start_bit CBits.num_bits BMM150._data_rate].
    rewrite Z.sub_0_r. change (0 + 2) with 2.
    replace (0 <=? i) with true by (symmetry; apply Z.leb_le; lia).
    reflexivity. }
  split; [|split; [|split; [|split]]].
  - rewrite Hbit by lia. change (0 <? 2) with true.
    cbn [negb]. now rewrite andb_false_r.
  - rewrite Hbit by lia. change (1 <? 2) with true.
    cbn [negb]. now rewrite andb_false_r.
  - rewrite Hbit by lia. change (2 <? 2) with false.
    cbn [negb]. now rewrite andb_true_r.
  - intros i Hi.
    assert (Hvi : Z.testbit value i = false)
      by (apply (testbit_above value 3); [exact Hv | exact Hi]).
    destruct (Z.ltb_spec i 8) as [Hlow|Hhigh].
    + rewrite Hbit, Hvi, orb_false_r by lia.
      replace (i <? 2) with false by (symmetry; apply Z.ltb_ge; lia).
      apply andb_true_r.
    + rewrite (byte_bits_above r) by (first [apply Hwf | lia]).
      apply byte_bits_above; [apply written_byte_range | lia].
  - intros a Ha. now apply upd_other.
Qed.

Lemma set_data_rate_register_witness :
  let self := BMM150.mk 0x13 in
  let s := mkBus (fun _ => 0x28) [] in
  let s' := after (BMM150.set_data_rate self RATE_20HZ) s in
  Z.testbit (regs s' _OPERATION_MODE) 2 = true /\
  Z.testbit (regs s' _OPERATION_MODE) 5 = true /\
  regs s' _POWER_CONTROL = 0x28.
Proof.
  intros self s s'.
  assert (Hwf : wf_regs (regs s)) by (intros a; simpl; lia).
  destruct (set_data_rate_register self RATE_20HZ s Hwf
              ltac:(simpl; tauto)) as (_ & _ & _ & H2 & Hhigh & Hregs).
  split; [exact H2 | split].
  - rewrite Hhigh by lia. reflexivity.
  - apply Hregs. discriminate.
Defined.

(** ** The whole-byte setters *)

Lemma interrupt_mode_set_run (self : BMM150.t) (value : Z) (s : bus) :
  In value interrupt_mode_values ->
  BMM150.set_interrupt_mode self value s
  = (Ok tt,
     mkBus (upd (regs s) 0x4D value)
       (trace s ++ [WriteToMem (BMM150._address self) 0x4D [value]])).
Proof.
  intros Hin. unfold BMM150.set_interrupt_mode.
  destruct (contains interrupt_mode_values value) eqn:Hc.
  - cbn [negb]. unfold BMM150._interrupt. rewrite set_byte_run; [reflexivity|].
    simpl in Hin. unfold INT_DISABLED, INT_ENABLED in Hin. lia.
  - apply contains_In in Hin. congruence.
Qed.

(** X9: a legal interrupt-mode write succeeds as a single write transaction
    carrying the value byte, with no read before it, and changes register
    0x4D only. *)
Theorem set_interrupt_mode_frame (self : BMM150.t) (value : Z) (s : bus) :
  In value interrupt_mode_values ->
  let s' := after (BMM150.set_interrupt_mode self value) s in
  outcome (BMM150.set_interrupt_mode self value) s = Ok tt /\
  trace s' = trace s ++ [WriteToMem (BMM150._address self) 0x4D [value]] /\
  regs s' 0x4D = value /\
  (forall a, a <> 0x4D -> regs s' a = regs s a).
Proof.
  intros Hin s'. subst s'. unfold outcome, after.
  rewrite interrupt_mode_set_run by assumption. cbn [fst snd regs trace].
  split; [reflexivity | split; [reflexivity | split]].
  - apply upd_same.
  - intros a Ha. now apply upd_other.
Qed.

Lemma set_interrupt_mode_frame_witness :
  let self := BMM150.mk 0x13 in
  let s := mkBus (fun _ => 0x3F) [] in
  let s' := after (BMM150.set_interrupt_mode self INT_DISABLED) s in
  trace s' = [WriteToMem 0x13 0x4D [0x1F]] /\ regs s' 0x4E = 0x3F.
Proof.
  intros self s s'.
  destruct (set_interrupt_mode_frame self INT_DISABLED s ltac:(simpl; tauto))
    as (_ & Htrace & _ & Hregs).
  split; [exact Htrace | apply Hregs; discriminate].
Defined.

Lemma get_byte_then_scale (reg addr : Z) (s : bus) :
  fst ((v <- RegisterStruct.get
               (RegisterStruct.mk reg true [RegisterStruct.B]) addr ;;
        ret (v * 16)) s) = Ok (regs s reg * 16).
Proof. erewrite bind_ok by apply get_byte_run. reflexivity. Qed.

Lemma threshold_set_run (reg : Z) (self : BMM150.t) (n : Z) (s : bus) :
  -16 < n < 4096 ->
  RegisterStruct.set (RegisterStruct.mk reg true [RegisterStruct.B])
    (BMM150._address self) (Z.quot n 16) s
  = (Ok tt,
     mkBus (upd (regs s) reg (Z.quot n 16))
       (trace s ++ [WriteToMem (BMM150._address self) reg [Z.quot n 16]])).
Proof.
  intros Hn. rewrite set_byte_run; [reflexivity|].
  destruct (Z.ltb_spec n 0) as [Hneg|Hpos].
  - replace n with (- - n) by lia.
    rewrite Z.quot_opp_l, Z.quot_small by lia. lia.
  - rewrite Z.quot_div_nonneg by lia.
    split; [apply Z.div_pos; lia | apply Z.div_lt_upper_bound; lia].
Qed.

(** X10: for every value that fits, [-16 < n < 4096], a threshold write is a
    single write transaction of the byte [int(n / 16)] to its own register
    and changes no other register; in particular writing the high threshold
    does not change what the low threshold reads, and the other way round. *)
Theorem threshold_writes_independent (self : BMM150.t) (n : Z) (s : bus) :
  -16 < n < 4096 ->
  let addr := BMM150._address self in
  let hi := after (BMM150.set_high_threshold self n) s in
  let lo := after (BMM150.set_low_threshold self n) s in
  trace hi = trace s ++ [WriteToMem addr _HIGH_THRESHOLD [Z.quot n 16]] /\
  trace lo = trace s ++ [WriteToMem addr _LOW_THRESHOLD [Z.quot n 16]] /\
  (forall a, a <> _HIGH_THRESHOLD -> regs hi a = regs s a) /\
  (forall a, a <> _LOW_THRESHOLD -> regs lo a = regs s a) /\
  outcome (BMM150.low_threshold self) hi = outcome (BMM150.low_threshold self) s /\
  outcome (BMM150.high_threshold self) lo = outcome (BMM150.high_threshold self) s.
Proof.
  intros Hn addr hi lo. subst hi lo.
  unfold after, outcome, BMM150.set_high_threshold, BMM150.set_low_threshold,
    BMM150._high_threshold, BMM150._low_threshold.
  rewrite !threshold_set_run by assumption. cbn [fst snd regs trace].
  split; [reflexivity | split; [reflexivity|]].
  split; [|split; [|split]].
  - intros a Ha. now apply upd_other.
  - intros a Ha. now apply upd_other.
  - unfold BMM150.low_threshold, BMM150._low_threshold.
    rewrite !get_byte_then_scale. cbn [regs].
    now rewrite upd_other by discriminate.
  - unfold BMM150.high_threshold, BMM150._high_threshold.
    rewrite !get_byte_then_scale. cbn [regs].
    now rewrite upd_other by discriminate.
Qed.

Lemma threshold_writes_independent_witness :
  let self := BMM150.mk 0x13 in
  let s := mkBus (fun _ => 0x07) [] in
  outcome (BMM150.low_threshold self)
          (after (BMM150.set_high_threshold self 4095) s) = Ok 112 /\
  trace (after (BMM150.set_low_threshold self (-5)) s)
  = [WriteToMem 0x13 _LOW_THRESHOLD [0]].
Proof.
  intros self s.
  destruct (threshold_writes_independent self 4095 s ltac:(lia))
    as (_ & _ & _ & _ & Hlow & _).
  destruct (threshold_writes_independent self (-5) s ltac:(lia))
    as (_ & Htrace & _).
  split; [rewrite Hlow; reflexivity | exact Htrace].
Defined.

(** X11: writing back the threshold just read changes no register: for every
    byte [b] held by the threshold register the getter returns [16 * b] and
    the setter stores [int(16 * b / 16) = b] again. *)
Theorem threshold_write_back (self : BMM150.t) (s : bus) :
  wf_regs (regs s) ->
  let high := t <- BMM150.high_threshold self ;;
              BMM150.set_high_threshold self t in
  let low := t <- BMM150.low_threshold self ;;
             BMM150.set_low_threshold self t in
  outcome high s = Ok tt /\ outcome low s = Ok tt /\
  (forall a, regs (after high s) a = regs s a) /\
  (forall a, regs (after low s) a = regs s a).
Proof.
  intros Hwf high low.
  assert (Hback : forall reg,
            let d := RegisterStruct.mk reg true [RegisterStruct.B] in
            let m := t <- (v <- RegisterStruct.get d (BMM150._address self) ;;
                           ret (v * 16)) ;;
                     RegisterStruct.set d (BMM150._address self) (Z.quot t 16) in
            outcome m s = Ok tt /\ forall a, regs (after m s) a = regs s a).
  { intros reg d m. subst m d. unfold outcome, after.
    pose proof (Hwf reg) as Hb.
    erewrite bind_ok
      by (erewrite bind_ok by apply get_byte_run; reflexivity).
    rewrite Z.quot_mul by lia.
    rewrite set_byte_run by (cbn [regs]; exact Hb).
    cbn [fst snd regs]. split; [reflexivity|].
    intros a. unfold store, upd. destruct (Z.eqb_spec a reg); congruence. }
  destruct (Hback _HIGH_THRESHOLD) as [Hh1 Hh2].
  destruct (Hback _LOW_THRESHOLD) as [Hl1 Hl2].
  repeat split; assumption.
Qed.

Lemma threshold_write_back_witness :
  let self := BMM150.mk 0x13 in
  let s := mkBus (fun _ => 0xC8) [] in
  regs (after (t <- BMM150.high_threshold self ;;
               BMM150.set_high_threshold self t) s) _HIGH_THRESHOLD = 0xC8.
Proof.
  intros self s.
  assert (Hwf : wf_regs (regs s)) by (intros a; simpl; lia).
  destruct (threshold_write_back self s Hwf) as (_ & _ & Hhigh & _).
  apply Hhigh.
Defined.

Lemma threshold_negative_truncates_witness :
  let self := BMM150.mk 0x13 in
  let s := mkBus (fun _ => 0xFF) [] in
  regs (after (BMM150.set_high_threshold self (-15)) s) _HIGH_THRESHOLD = 0 /\
  outcome (BMM150.set_low_threshold self (-15) ;;;
           BMM150.low_threshold self) s = Ok 0.
Proof.
  intros self s.
  destruct (threshold_negative_truncates self (-15) s ltac:(lia))
    as (Hhigh & _ & _ & Hlow).
  split; [exact Hhigh | exact Hlow].
Defined.

(** X18: quantisation keeps the order of thresholds: of two values in range,
    [0 <= n <= m < 4096], the larger never reads back below the smaller,
    for the high and for the low threshold alike. *)
Theorem threshold_monotone (self : BMM150.t) (n m : Z) (s : bus) :
  0 <= n <= m -> m < 4096 ->
  let high v := outcome (BMM150.set_high_threshold self v ;;;
                         BMM150.high_threshold self) s in
  let low v := outcome (BMM150.set_low_threshold self v ;;;
                        BMM150.low_threshold self) s in
  exists a b, a <= b /\
    high n = Ok a /\ high m = Ok b /\ low n = Ok a /\ low m = Ok b.
Proof.
  intros Hnm Hm high low.
  exists (n / 16 * 16), (m / 16 * 16).
  split.
  - pose proof (Z.div_le_mono n m 16 ltac:(lia) ltac:(lia)). lia.
  - subst high low. cbv beta.
    destruct (threshold_cycle _HIGH_THRESHOLD self n s ltac:(lia))
      as (_ & _ & Hhn).
    destruct (threshold_cycle _HIGH_THRESHOLD self m s ltac:(lia))
      as (_ & _ & Hhm).
    destruct (threshold_cycle _LOW_THRESHOLD self n s ltac:(lia))
      as (_ & _ & Hln).
    destruct (threshold_cycle _LOW_THRESHOLD self m s ltac:(lia))
      as (_ & _ & Hlm).
    repeat split; assumption.
Qed.

Lemma threshold_monotone_witness :
  let self := BMM150.mk 0x13 in
  let s := mkBus (fun _ => 0) [] in
  exists a b, a <= b /\
    outcome (BMM150.set_high_threshold self 100 ;;;
             BMM150.high_threshold self) s = Ok a /\
    outcome (BMM150.set_high_threshold self 111 ;;;
             BMM150.high_threshold self) s = Ok b.
Proof.
  intros self s.
  destruct (threshold_monotone self 100 111 s ltac:(lia) ltac:(lia))
    as (a & b & Hab & Hn & Hm & _).
  exists a, b. split; [exact Hab | split; [exact Hn | exact Hm]].
Defined.

(** ** Measurements from the register bytes *)

(** A byte read as a signed high byte. *)
Lemma decode_h_bytes (lo hi : Z) :
  0 <= lo < 256 -> 0 <= hi < 256 ->
  RegisterStruct.decode_field true RegisterStruct.h [lo; hi]
  = lo + 256 * (if 128 <=? hi then hi - 256 else hi).
Proof.
  intros Hlo Hhi. unfold RegisterStruct.decode_field, combine_bytes.
  cbn [RegisterStruct.signed RegisterStruct.h andb le_combine].
  change (RegisterStruct.bits RegisterStruct.h) with 16.
  change (2 ^ (16 - 1)) with 32768. change (2 ^ 16) with 65536.
  destruct (Z.leb_spec 32768 (lo + 256 * (hi + 256 * 0))),
    (Z.leb_spec 128 hi); lia.
Qed.

(** X12: for every content of the eight data registers [measurements]
    returns, never raising, the four samples built from each byte pair as
    low byte shifted right (by 3, 3, 1, 2, which drops the status bits) plus
    the signed high byte scaled (by 32, 32, 128, 64); so the x and y samples
    lie in [-4096, 4096), z in [-16384, 16384) and hall in [-8192, 8192). *)
Theorem measurements_from_bytes (self : BMM150.t) (s : bus) :
  wf_regs (regs s) ->
  let b k := regs s (_DATA + k) in
  let sb k := if 128 <=? b k then b k - 256 else b k in
  let magx := b 0 / 8 + 32 * sb 1 in
  let magy := b 2 / 8 + 32 * sb 3 in
  let magz := b 4 / 2 + 128 * sb 5 in
  let hall := b 6 / 4 + 64 * sb 7 in
  outcome (BMM150.measurements self) s = Ok (magx, magy, magz, hall) /\
  -4096 <= magx < 4096 /\ -4096 <= magy < 4096 /\
  -16384 <= magz < 16384 /\ -8192 <= hall < 8192.
Proof.
  intros Hwf b sb magx magy magz hall.
  assert (Hb : forall k, 0 <= b k < 256) by (intros k; apply Hwf).
  assert (Hsb : forall k, -128 <= sb k < 128).
  { intros k. unfold sb. specialize (Hb k).
    destruct (Z.leb_spec 128 (b k)); lia. }
  split.
  - unfold outcome, BMM150.measurements, RegisterStruct.get, bind, readfrom_mem.
    cbn [ret BMM150._raw_data RegisterStruct.fields RegisterStruct.calcsize
         RegisterStruct.register_address RegisterStruct.little_endian
         RegisterStruct.decode RegisterStruct.unpack RegisterStruct.width
         RegisterStruct.h fold_right Nat.add fetch firstn skipn fst].
    rewrite !decode_h_bytes by apply Hwf.
    rewrite !Z.shiftr_div_pow2 by lia.
    change (2 ^ 3) with 8. change (2 ^ 1) with 2. change (2 ^ 2) with 4.
    assert (Hdiv : forall lo x m k, 0 < k -> 256 = m * k ->
                     (lo + 256 * x) / k = lo / k + m * x).
    { intros lo x m k Hk ->.
      replace (lo + m * k * x) with (lo + (m * x) * k) by lia.
      apply Z.div_add. lia. }
    rewrite (Hdiv _ _ 32 8), (Hdiv _ _ 32 8), (Hdiv _ _ 128 2),
      (Hdiv _ _ 64 4) by lia.
    reflexivity.
  - subst magx magy magz hall.
    pose proof (Hb 0). pose proof (Hb 2). pose proof (Hb 4). pose proof (Hb 6).
    pose proof (Hsb 1). pose proof (Hsb 3). pose proof (Hsb 5).
    pose proof (Hsb 7).
    pose proof (Z.div_pos (b 0) 8). pose proof (Z.div_lt_upper_bound (b 0) 8 32).
    pose proof (Z.div_pos (b 2) 8). pose proof (Z.div_lt_upper_bound (b 2) 8 32).
    pose proof (Z.div_pos (b 4) 2). pose proof (Z.div_lt_upper_bound (b 4) 2 128).
    pose proof (Z.div_pos (b 6) 4). pose proof (Z.div_lt_upper_bound (b 6) 4 64).
    lia.
Qed.

Lemma measurements_from_bytes_witness :
  let bytes := [0xF9; 0xFF; 0x47; 0x00; 0xFB; 0xFF; 0x02; 0x80] in
  let s := mkBus (fun a => nth (Z.to_nat (a - _DATA)) bytes 0) [] in
  outcome (BMM150.measurements (BMM150.mk 0x13)) s = Ok (-1, 8, -3, -8192).
Proof.
  intros bytes s.
  assert (Hwf : wf_regs (regs s)).
  { intros a. subst s. cbn [regs]. generalize (Z.to_nat (a - _DATA)).
    intros n. subst bytes.
    do 8 (destruct n as [|n]; [simpl; lia|]). destruct n; simpl; lia. }
  destruct (measurements_from_bytes (BMM150.mk 0x13) s Hwf) as [Hrun _].
  exact Hrun.
Defined.

(** ** What construction leaves in the registers *)

Lemma init_run (address : Z) (s : bus) :
  let p := CBits.insert BMM150._power_mode (regs s _POWER_CONTROL) 1
           mod 2 ^ 8 in
  let m := CBits.insert BMM150._operation_mode (regs s _OPERATION_MODE) NORMAL
           mod 2 ^ 8 in
  let s1 := mkBus (upd (regs s) _POWER_CONTROL p)
              (trace s ++ [ReadFromMem address _POWER_CONTROL 1;
                           WriteToMem address _POWER_CONTROL [p];
                           ReadFromMem address _REG_WHOAMI 1]) in
  BMM150.__init__ address s
  = if regs s _REG_WHOAMI =? 0x32
    then (Ok (BMM150.mk address),
          mkBus (upd (regs s1) _OPERATION_MODE m)
            (trace s1 ++ [ReadFromMem address _OPERATION_MODE 1;
                          WriteToMem address _OPERATION_MODE [m]]))
    else (Raise (RuntimeError "Failed to find BMM150"), s1).
Proof.
  cbv zeta. unfold BMM150.__init__. cbn [BMM150._address].
  erewrite bind_ok by (apply CBits_set_byte_run; reflexivity).
  erewrite bind_ok by apply get_byte_run.
  cbn [regs trace].
  change (upd (regs s) (CBits.register_address BMM150._power_mode)
            (CBits.insert BMM150._power_mode
               (regs s (CBits.register_address BMM150._power_mode)) 1
             mod 2 ^ 8) _REG_WHOAMI) with (regs s _REG_WHOAMI).
  destruct (regs s _REG_WHOAMI =? 50); cbn [negb].
  - erewrite bind_ok by (apply CBits_set_byte_run; reflexivity).
    cbn [ret regs trace]. rewrite <- !app_assoc. reflexivity.
  - cbn [raise]. rewrite <- !app_assoc. reflexivity.
Qed.

(** A field write within one byte keeps the bits outside the field. *)
Lemma written_byte_frame (c : CBits.t) (r v i : Z) :
  0 <= r < 256 ->
  0 <= CBits.start_bit c -> 0 <= CBits.num_bits c ->
  0 <= v < 2 ^ CBits.num_bits c ->
  ~ (CBits.start_bit c <= i < CBits.start_bit c + CBits.num_bits c) ->
  Z.testbit (CBits.insert c r v mod 2 ^ 8) i = Z.testbit r i.
Proof.
  intros Hr Hs Hn Hv Hi.
  destruct (Z.ltb_spec i 0) as [Hneg|Hpos]; [now rewrite !Z.testbit_neg_r|].
  destruct (Z.ltb_spec i 8) as [Hlow|Hhigh].
  - rewrite Z.mod_pow2_bits_low by lia. now apply insert_frame.
  - rewrite (byte_bits_above r) by assumption.
    apply byte_bits_above; [apply written_byte_range | assumption].
Qed.

(** C8: construction first writes the power-control register 0x4B with bit
    0 set (a read-modify-write that keeps its bits 1 to 7), then reads the
    identity register once, and only when that byte is 0x32 writes NORMAL into
    the operation-mode field of 0x4C (keeping the bits outside the field),
    after which the operation mode reads NORMAL and the instance is returned;
    with any other identity byte it raises [RuntimeError] right after the
    single identity read, yields no instance and leaves 0x4C as it was.  The
    transactions come in exactly this order and no other register changes. *)
Theorem init_protocol (address : Z) (s : bus) :
  let id := regs s _REG_WHOAMI in
  let s' := after (BMM150.__init__ address) s in
  exists p m : Z,
    Z.testbit p 0 = true /\
    CBits.extract BMM150._operation_mode m = NORMAL /\
    outcome (BMM150.__init__ address) s
    = (if id =? 0x32 then Ok (BMM150.mk address)
       else Raise (RuntimeError "Failed to find BMM150")) /\
    trace (after (BMM150.__init__ address) s)
    = trace s
      ++ [ReadFromMem address _POWER_CONTROL 1;
          WriteToMem address _POWER_CONTROL [p];
          ReadFromMem address _REG_WHOAMI 1]
      ++ (if id =? 0x32
          then [ReadFromMem address _OPERATION_MODE 1;
                WriteToMem address _OPERATION_MODE [m]]
          else []) /\
    regs s' _POWER_CONTROL = p /\
    Z.land p 0xFE = Z.land (regs s _POWER_CONTROL) 0xFE /\
    Z.land m 0xF9 = Z.land (regs s _OPERATION_MODE) 0xF9 /\
    (if id =? 0x32
     then regs s' _OPERATION_MODE = m /\
          outcome (BMM150.operation_mode (BMM150.mk address)) s' = Ok "NORMAL"
     else regs s' _OPERATION_MODE = regs s _OPERATION_MODE) /\
    (forall a, a <> _POWER_CONTROL -> a <> _OPERATION_MODE ->
       regs s' a = regs s a).
Proof.
  intros id s'.
  exists (CBits.insert BMM150._power_mode (regs s _POWER_CONTROL) 1 mod 2 ^ 8),
         (CBits.insert BMM150._operation_mode (regs s _OPERATION_MODE) NORMAL
            mod 2 ^ 8).
  assert (Hkeep : forall c r v mask,
            0 <= CBits.start_bit c -> 0 <= CBits.num_bits c ->
            (forall i, 0 <= i < 8 ->
               Z.testbit mask i
               = negb ((CBits.start_bit c <=? i)
                       && (i <? CBits.start_bit c + CBits.num_bits c))) ->
            (forall i, 0 <= i < 8 -> Z.testbit mask i = true ->
               Z.testbit v (i - CBits.start_bit c) = false) ->
            0 <= mask < 256 ->
            Z.land (CBits.insert c r v mod 2 ^ 8) mask = Z.land r mask).
  { intros c r v mask Hs Hn Hmask Hv Hrange.
    apply Z.bits_inj'. intros i Hi. rewrite !Z.land_spec.
    destruct (Z.ltb_spec i 8) as [Hlow|Hhigh].
    - rewrite written_byte_bit by lia.
      destruct (Z.testbit mask i) eqn:Hm;
        [|now rewrite !andb_false_r].
      rewrite (Hv i) by (assumption || lia).
      rewrite <- (Hmask i) by lia.
      now rewrite Hm, orb_false_r, !andb_true_r.
    - rewrite (byte_bits_above mask) by assumption.
      now rewrite !andb_false_r. }
  assert (Hbits : forall i, 0 <= i < 8 ->
            i = 0 \/ i = 1 \/ i = 2 \/ i = 3 \/ i = 4 \/ i = 5 \/ i = 6 \/ i = 7)
    by (intros; lia).
  subst s'. unfold outcome, after. rewrite init_run. fold id.
  split.
  { rewrite written_byte_bit by (simpl; lia). apply orb_true_r. }
  split.
  { apply extract_insert; simpl; lia. }
  assert (Hp : Z.land (CBits.insert BMM150._power_mode
                         (regs s _POWER_CONTROL) 1 mod 2 ^ 8) 0xFE
               = Z.land (regs s _POWER_CONTROL) 0xFE).
  { apply Hkeep; try (simpl; lia).
    - intros i Hi.
      destruct (Hbits i Hi) as [->|[->|[->|[->|[->|[->|[->| ->]]]]]]];
        reflexivity.
    - intros i Hi.
      destruct (Hbits i Hi) as [->|[->|[->|[->|[->|[->|[->| ->]]]]]]];
        (reflexivity || discriminate). }
  assert (Hm : Z.land (CBits.insert BMM150._operation_mode
                         (regs s _OPERATION_MODE) NORMAL mod 2 ^ 8) 0xF9
               = Z.land (regs s _OPERATION_MODE) 0xF9).
  { apply Hkeep; try (simpl; lia).
    - intros i Hi.
      destruct (Hbits i Hi) as [->|[->|[->|[->|[->|[->|[->| ->]]]]]]];
        reflexivity.
    - intros i Hi _. unfold NORMAL. apply Z.testbit_0_l. }
  destruct (id =? 50); cbn [fst snd regs trace].
  - split; [reflexivity|]. split.
    { rewrite <- !app_assoc. reflexivity. }
    split.
    { rewrite (upd_other _ _OPERATION_MODE) by discriminate. apply upd_same. }
    split; [exact Hp|]. split; [exact Hm|]. split.
    + split; [apply upd_same|].
      match goal with
      | |- fst (?m ?b) = _ => change (fst (m b)) with (outcome m b)
      end.
      rewrite operation_mode_by_bits. cbn [regs]. rewrite upd_same.
      rewrite !written_byte_bit by (simpl; lia).
      generalize (Z.testbit (regs s _OPERATION_MODE) 2),
        (Z.testbit (regs s _OPERATION_MODE) 1).
      intros [] []; reflexivity.
    + intros a Hpa Hma. now rewrite !upd_other by assumption.
  - split; [reflexivity|]. split; [reflexivity|].
    split; [apply upd_same|].
    split; [exact Hp|]. split; [exact Hm|]. split.
    + now rewrite upd_other by discriminate.
    + intros a Hpa Hma. now rewrite upd_other by assumption.
Qed.

(** X13: construction powers the device on whether or not it then succeeds:
    afterwards bit 0 of the power-control register 0x4B is set and its other
    bits are as before; when the identity byte is not 0x32 and construction
    raises, that bit stays set and no other register has changed. *)
Theorem init_powers_on (address : Z) (s : bus) :
  wf_regs (regs s) ->
  let s' := after (BMM150.__init__ address) s in
  Z.testbit (regs s' _POWER_CONTROL) 0 = true /\
  (forall i, i <> 0 ->
     Z.testbit (regs s' _POWER_CONTROL) i
     = Z.testbit (regs s _POWER_CONTROL) i) /\
  (regs s _REG_WHOAMI <> 0x32 ->
   outcome (BMM150.__init__ address) s
   = Raise (RuntimeError "Failed to find BMM150") /\
   forall a, a <> _POWER_CONTROL -> regs s' a = regs s a).
Proof.
  intros Hwf s'. subst s'. unfold outcome, after. rewrite init_run.
  assert (Hp0 : Z.testbit
                  (CBits.insert BMM150._power_mode (regs s _POWER_CONTROL) 1
                   mod 2 ^ 8) 0 = true).
  { rewrite written_byte_bit by (simpl; lia). apply orb_true_r. }
  assert (Hpi : forall i, i <> 0 ->
            Z.testbit
              (CBits.insert BMM150._power_mode (regs s _POWER_CONTROL) 1
               mod 2 ^ 8) i = Z.testbit (regs s _POWER_CONTROL) i).
  { intros i Hi. apply written_byte_frame; try (simpl; lia). apply Hwf. }
  destruct (Z.eqb_spec (regs s _REG_WHOAMI) 0x32) as [Hid|Hid];
    cbn [fst snd regs].
  - rewrite (upd_other _ _OPERATION_MODE) by discriminate. rewrite upd_same.
    split; [exact Hp0 | split; [exact Hpi | intros Hne; contradiction]].
  - rewrite upd_same.
    split; [exact Hp0 | split; [exact Hpi|]].
    intros _. split; [reflexivity|]. intros a Ha. now apply upd_other.
Qed.

Lemma init_powers_on_witness :
  let s := mkBus (fun _ => 0x82) [] in
  let s' := after (BMM150.__init__ 0x13) s in
  outcome (BMM150.__init__ 0x13) s
  = Raise (RuntimeError "Failed to find BMM150") /\
  regs s' _POWER_CONTROL = 0x83 /\ regs s' _OPERATION_MODE = 0x82.
Proof.
  intros s s'.
  assert (Hwf : wf_regs (regs s)) by (intros a; simpl; lia).
  destruct (init_powers_on 0x13 s Hwf) as (_ & _ & Hfail).
  destruct (Hfail ltac:(discriminate)) as [Hraise Hregs].
  split; [exact Hraise | split; [reflexivity|]].
  apply Hregs. discriminate.
Defined.

(** X14: when the identity byte is 0x32 construction returns the instance
    and leaves a device whose operation mode reads NORMAL and whose data rate
    reads RATE_10HZ or RATE_2HZ (by the old bit 0 of register 0x4C; bit 1,
    shared with the mode field, has been cleared); the bits of 0x4C outside
    the mode field and every register other than 0x4B and 0x4C are as
    before. *)
Theorem init_success_state (address : Z) (s : bus) :
  wf_regs (regs s) ->
  regs s _REG_WHOAMI = 0x32 ->
  let self := BMM150.mk address in
  let s' := after (BMM150.__init__ address) s in
  outcome (BMM150.__init__ address) s = Ok self /\
  outcome (BMM150.operation_mode self) s' = Ok "NORMAL" /\
  outcome (BMM150.data_rate self) s'
  = Ok (if Z.testbit (regs s _OPERATION_MODE) 0
        then "RATE_2HZ" else "RATE_10HZ") /\
  (forall i, i <> 1 -> i <> 2 ->
     Z.testbit (regs s' _OPERATION_MODE) i
     = Z.testbit (regs s _OPERATION_MODE) i) /\
  (forall a, a <> _POWER_CONTROL -> a <> _OPERATION_MODE ->
     regs s' a = regs s a).
Proof.
  intros Hwf Hid self s'. subst s' self. unfold after.
  unfold outcome at 1. rewrite init_run, Hid. cbn [Z.eqb Pos.eqb fst snd].
  rewrite operation_mode_by_bits, data_rate_by_bits. cbn [regs].
  rewrite upd_same.
  split; [reflexivity|].
  split; [|split; [|split]].
  - rewrite !written_byte_bit by (simpl; lia).
    generalize (Z.testbit (regs s _OPERATION_MODE) 2),
      (Z.testbit (regs s _OPERATION_MODE) 1).
    intros [] []; reflexivity.
  - rewrite !written_byte_bit by (simpl; lia).
    generalize (Z.testbit (regs s _OPERATION_MODE) 1),
      (Z.testbit (regs s _OPERATION_MODE) 0).
    intros [] []; reflexivity.
  - intros i H1 H2.
    apply written_byte_frame;
      first [apply Hwf | unfold NORMAL; simpl; lia].
  - intros a Hp Hm. now rewrite !upd_other by assumption.
Qed.

Lemma init_success_state_witness :
  let s := mkBus (fun a => if a =? _REG_WHOAMI then 0x32 else 0xFF) [] in
  let s' := after (BMM150.__init__ 0x13) s in
  outcome (BMM150.operation_mode (BMM150.mk 0x13)) s' = Ok "NORMAL" /\
  outcome (BMM150.data_rate (BMM150.mk 0x13)) s' = Ok "RATE_2HZ" /\
  regs s' _OPERATION_MODE = 0xF9.
Proof.
  intros s s'.
  assert (Hwf : wf_regs (regs s)).
  { intros a. simpl. destruct (a =? _REG_WHOAMI); lia. }
  destruct (init_success_state 0x13 s Hwf eq_refl)
    as (_ & Hmode & Hrate & _ & _).
  split; [exact Hmode | split; [exact Hrate | reflexivity]].
Defined.

(** * The example scripts *)

Lemma lift_run {A} (m : M A) (w : Script.world) :
  Script.lift m w
  = (match outcome m (Script.i2c w) with
     | Ok a => Script.Done a
     | Raise e => Script.Stop (Script.Uncaught e)
     end,
     Script.mkWorld (after m (Script.i2c w)) (Script.stdout w)).
Proof.
  unfold Script.lift, outcome, after.
  destruct (m (Script.i2c w)) as [[a|e] b]; reflexivity.
Qed.

Lemma and_then_done {A B} (m : Script.t A) (k : A -> Script.t B)
      (w w' : Script.world) (a : A) :
  m w = (Script.Done a, w') -> Script.and_then m k w = k a w'.
Proof. intros E. unfold Script.and_then. now rewrite E. Qed.

Lemma and_then_stop {A B} (m : Script.t A) (k : A -> Script.t B)
      (w w' : Script.world) (st : Script.stop) :
  m w = (Script.Stop st, w') ->
  Script.and_then m k w = (Script.Stop st, w').
Proof. intros E. unfold Script.and_then. now rewrite E. Qed.

(** The loop body stops in its first pass, after one line of output. *)
Lemma data_rate_body_stops (bmm : BMM150.t) (w : Script.world) :
  Script.data_rate_body bmm w
  = match outcome (BMM150.data_rate bmm) (Script.i2c w) with
    | Ok current =>
        (Script.Stop (Script.AttributeError "magnetic"),
         Script.mkWorld (after (BMM150.data_rate bmm) (Script.i2c w))
           (Script.stdout w
            ++ [("Current Data rate setting: " ++ " " ++ current)%string]))
    | Raise e =>
        (Script.Stop (Script.Uncaught e),
         Script.mkWorld (after (BMM150.data_rate bmm) (Script.i2c w))
           (Script.stdout w))
    end.
Proof.
  unfold Script.data_rate_body.
  cbn [Script.for_each data_rate_values].
  unfold Script.and_then at 1. unfold Script.and_then at 1.
  unfold Script.and_then at 1. rewrite lift_run.
  destruct (outcome (BMM150.data_rate bmm) (Script.i2c w)); reflexivity.
Qed.

(** X15: [examples/bmm150_data_rate.py] never gets past its first reading.
    On a device that identifies as 0x32 it sets the rate, prints the one line
    "Current Data rate setting:  RATE_2HZ" and stops on the [AttributeError]
    of [bmm.magnetic], an attribute the class does not define; on any other
    device it stops on the [RuntimeError] of the constructor, having printed
    nothing. *)
Theorem data_rate_example_stops (fuel : nat) (s : bus) (out : list string) :
  let run := Script.data_rate_example (S fuel) (Script.mkWorld s out) in
  if regs s _REG_WHOAMI =? 0x32
  then fst run = Script.Stop (Script.AttributeError "magnetic") /\
       Script.stdout (snd run)
       = out ++ ["Current Data rate setting:  RATE_2HZ"]
  else fst run = Script.Stop
                   (Script.Uncaught (RuntimeError "Failed to find BMM150")) /\
       Script.stdout (snd run) = out.
Proof.
  cbv zeta. unfold Script.data_rate_example.
  pose proof (init_run 0x13 s) as Hinit. cbv zeta in Hinit.
  destruct (regs s _REG_WHOAMI =? 50).
  - erewrite and_then_done
      by (rewrite lift_run; unfold outcome, after; cbn [Script.i2c];
          rewrite Hinit; reflexivity).
    erewrite and_then_done
      by (rewrite lift_run; unfold outcome, after; cbn [Script.i2c snd];
          rewrite set_data_rate_run by (simpl; tauto); reflexivity).
    cbn [Script.while_true].
    match goal with
    | |- context [Script.and_then (Script.data_rate_body ?b) _ ?w] =>
        assert (Hrate : outcome (BMM150.data_rate b) (Script.i2c w)
                        = Ok "RATE_2HZ")
    end.
    { cbn [Script.i2c]. rewrite data_rate_by_bits. cbv zeta.
      cbn [regs snd after]. rewrite upd_same.
      rewrite !written_byte_bit by (simpl; lia).
      match goal with
      | |- context [Z.testbit (upd ?f ?a ?v ?x) 1] =>
          generalize (Z.testbit (upd f a v x) 1),
            (Z.testbit (upd f a v x) 0)
      end.
      intros [] []; reflexivity. }
    erewrite and_then_stop
      by (rewrite data_rate_body_stops, Hrate; reflexivity).
    split; reflexivity.
  - erewrite and_then_stop
      by (rewrite lift_run; unfold outcome, after; cbn [Script.i2c];
          rewrite Hinit; reflexivity).
    split; reflexivity.
Qed.

Lemma measurements_run (self : BMM150.t) (s : bus) :
  exists v,
    BMM150.measurements self s
    = (Ok v,
       mkBus (regs s) (trace s ++ [ReadFromMem (BMM150._address self) _DATA 8])).
Proof. eexists. reflexivity. Qed.

Lemma status_interrupt_state (self : BMM150.t) (s : bus) :
  exists st,
    BMM150.status_interrupt self s
    = (Ok st,
       mkBus (regs s) (trace s ++ [ReadFromMem (BMM150._address self) 0x4A 1])).
Proof. eexists. reflexivity. Qed.

(** One pass of the loop of [examples/bmm150_interrupt_mode.py]: two reads,
    three lines, no register touched. *)
Lemma interrupt_mode_body_run (bmm : BMM150.t) (w : Script.world) :
  let addr := BMM150._address bmm in
  exists l1 l2,
    Script.interrupt_mode_body bmm w
    = (Script.Done tt,
       Script.mkWorld
         (mkBus (regs (Script.i2c w))
            (trace (Script.i2c w)
             ++ [ReadFromMem addr _DATA 8; ReadFromMem addr 0x4A 1]))
         (Script.stdout w ++ [l1; l2; ""])).
Proof.
  intros addr.
  destruct (measurements_run bmm (Script.i2c w)) as [[[[x y] z] h] Hm].
  destruct (status_interrupt_state bmm
              (mkBus (regs (Script.i2c w))
                 (trace (Script.i2c w) ++ [ReadFromMem addr _DATA 8])))
    as [st Hst].
  eexists. eexists.
  unfold Script.interrupt_mode_body.
  erewrite and_then_done
    by (rewrite lift_run; unfold outcome, after; rewrite Hm; reflexivity).
  cbn [fst snd Script.stdout].
  unfold Script.and_then at 1. unfold Script.print at 1.
  cbn [Script.i2c Script.stdout].
  erewrite and_then_done
    by (rewrite lift_run; unfold outcome, after; cbn [Script.i2c];
        fold addr; rewrite Hst; reflexivity).
  unfold Script.and_then, Script.print, Script.sleep, Script.pure.
  cbn [Script.i2c Script.stdout fst snd regs trace].
  rewrite <- !app_assoc. reflexivity.
Qed.

Lemma interrupt_mode_loop_run (bmm : BMM150.t) (fuel : nat) :
  forall w,
    let addr := BMM150._address bmm in
    let run := Script.while_true fuel (Script.interrupt_mode_body bmm) w in
    fst run = Script.Stop Script.StillRunning /\
    regs (Script.i2c (snd run)) = regs (Script.i2c w) /\
    trace (Script.i2c (snd run))
    = trace (Script.i2c w)
      ++ List.concat (repeat [ReadFromMem addr _DATA 8; ReadFromMem addr 0x4A 1]
                   fuel) /\
    List.length (Script.stdout (snd run))
    = (List.length (Script.stdout w) + 3 * fuel)%nat.
Proof.
  induction fuel as [|fuel IH]; intros w addr run; subst run addr.
  - cbn. rewrite app_nil_r. repeat split. lia.
  - cbn [Script.while_true].
    destruct (interrupt_mode_body_run bmm w) as (l1 & l2 & Hbody).
    rewrite (and_then_done _ _ _ _ _ Hbody).
    cbv zeta in Hbody.
    match type of Hbody with
    | _ = (_, ?w') => destruct (IH w') as (Hstop & Hregs & Htrace & Hout)
    end.
    cbn [Script.i2c Script.stdout regs trace] in Hregs, Htrace, Hout.
    split; [exact Hstop | split; [exact Hregs | split]].
    + rewrite Htrace. cbn [repeat List.concat]. now rewrite <- app_assoc.
    + rewrite Hout, length_app. cbn [List.length]. lia.
Qed.

(** X16: on a device that identifies as 0x32,
    [examples/bmm150_interrupt_mode.py] constructs the driver, writes 0x00
    (enabled) to the interrupt register and 6 (for the threshold 100) to the
    high-threshold register, and then loops without ever raising: however
    many passes it is given, each pass is one read of the eight data bytes
    and one read of the status byte, prints three lines and writes to no
    register. *)
Theorem interrupt_mode_example_runs (fuel : nat) (s : bus) (out : list string) :
  regs s _REG_WHOAMI = 0x32 ->
  let run := Script.interrupt_mode_example fuel (Script.mkWorld s out) in
  let b := Script.i2c (snd run) in
  fst run = Script.Stop Script.StillRunning /\
  regs b 0x4D = INT_ENABLED /\
  regs b _HIGH_THRESHOLD = 6 /\
  (exists p m,
      trace b
      = trace s
        ++ [ReadFromMem 0x13 _POWER_CONTROL 1;
            WriteToMem 0x13 _POWER_CONTROL [p];
            ReadFromMem 0x13 _REG_WHOAMI 1;
            ReadFromMem 0x13 _OPERATION_MODE 1;
            WriteToMem 0x13 _OPERATION_MODE [m];
            WriteToMem 0x13 0x4D [INT_ENABLED];
            WriteToMem 0x13 _HIGH_THRESHOLD [6]]
        ++ List.concat (repeat [ReadFromMem 0x13 _DATA 8; ReadFromMem 0x13 0x4A 1]
                     fuel)) /\
  List.length (Script.stdout (snd run)) = (List.length out + 3 * fuel)%nat.
Proof.
  intros Hid run b. subst b run.
  unfold Script.interrupt_mode_example, Script.interrupt_mode_setup.
  pose proof (init_run 0x13 s) as Hinit. cbv zeta in Hinit.
  rewrite Hid in Hinit. cbn [Z.eqb Pos.eqb] in Hinit.
  erewrite and_then_done.
  2: { erewrite and_then_done
         by (rewrite lift_run; unfold outcome, after; cbn [Script.i2c];
             rewrite Hinit; reflexivity).
       erewrite and_then_done
         by (rewrite lift_run; unfold outcome, after; cbn [Script.i2c snd];
             rewrite interrupt_mode_set_run by (simpl; tauto); reflexivity).
       erewrite and_then_done
         by (rewrite lift_run; unfold outcome, after; cbn [Script.i2c snd];
             unfold BMM150.set_high_threshold, BMM150._high_threshold;
             rewrite threshold_set_run by lia; reflexivity).
       reflexivity. }
  match goal with
  | |- context [Script.while_true fuel ?body ?w] =>
      destruct (interrupt_mode_loop_run (BMM150.mk 0x13) fuel w)
        as (Hstop & Hregs & Htrace & Hout)
  end.
  cbn [BMM150._address] in *.
  split; [exact Hstop|].
  rewrite Hregs, Htrace, Hout.
  cbn [Script.i2c Script.stdout regs trace fst snd].
  change (Z.quot 100 16) with 6.
  split; [reflexivity | split; [reflexivity | split; [|reflexivity]]].
  eexists. eexists. rewrite <- !app_assoc. cbn [app]. reflexivity.
Qed.

Lemma interrupt_mode_example_runs_witness :
  let s := mkBus (fun a => if a =? _REG_WHOAMI then 0x32 else 0) [] in
  let run := Script.interrupt_mode_example 2 (Script.mkWorld s []) in
  fst run = Script.Stop Script.StillRunning /\
  regs (Script.i2c (snd run)) _HIGH_THRESHOLD = 6 /\
  List.length (Script.stdout (snd run)) = 6%nat.
Proof.
  intros s run.
  destruct (interrupt_mode_example_runs 2 s [] eq_refl)
    as (Hstop & _ & Hhigh & _ & Hout).
  split; [exact Hstop | split; [exact Hhigh | exact Hout]].
Defined.
